(** * AZ::Data::InstanceDatabase

    A shallow embedding of
    [dev/Code/Framework/AtomCore/AtomCore/Instance/InstanceDatabase.h]:
    the handler registry, the instance table, the find-or-create protocol
    and the release protocol, together with the properties the design
    document states about them.

    The database is a class with two hash maps; both are finite maps here
    ([gmap]).  Instances live on a heap addressed by pointers, because the
    table stores raw [Type*] and the release protocol compares pointers.
    Every member function is a state transformer over a [World]: the
    database object, the heap of instances, and a trace of the observable
    events (locks taken, diagnostics, asset loads, calls of the create and
    delete functions of the handlers).

    The static functions that bind the database to the process-wide
    environment variable ([Create], [Destroy], [IsReady], [Instance]) and
    the destructor are not part of the embedding. *)

From stdpp Require Import gmap list.
From Stdlib Require Import ZArith.

Open Scope Z_scope.

(** ** Identifiers *)

(** [AZ::Uuid]: a 128-bit value; the null uuid is [0]. *)
Definition Uuid : Type := N.
Definition Uuid_CreateNull : Uuid := 0%N.

(** [AZ::Data::AssetType] is a [Uuid]. *)
Definition AssetType : Type := Uuid.

(** Modelled from the spec: the asset identity ([AssetId] of
    AzCore/Asset/AssetCommon.h is not part of the sources).  An identity is
    a value with equality and hashing. *)
Record AssetId : Type := mkAssetId { asset_guid : Uuid; asset_subId : N }.

#[global] Instance AssetId_eq_dec : EqDecision AssetId.
Proof. solve_decision. Defined.

(** Modelled from the spec: the identity key ([InstanceId] of
    AtomCore/Instance/InstanceId.h is not part of the sources).  A
    fixed-size value with equality and hashing; the default key is the
    invalid one. *)
Record InstanceId : Type := mkInstanceId { m_guid : Uuid; m_subId : N }.

#[global] Instance InstanceId_eq_dec : EqDecision InstanceId.
Proof. solve_decision. Defined.

#[global] Program Instance InstanceId_countable : Countable InstanceId :=
  inj_countable' (λ i, (m_guid i, m_subId i)) (λ p, mkInstanceId p.1 p.2) _.
Next Obligation. by intros []. Qed.

Definition InstanceId_default : InstanceId := mkInstanceId Uuid_CreateNull 0%N.

(** Modelled from the spec: [InstanceId::IsValid]; only the default key is
    invalid. *)
Definition IsValid (id : InstanceId) : bool :=
  negb (N.eqb (m_guid id) Uuid_CreateNull).

(** Modelled from the spec: [InstanceId::CreateFromAssetId], the key
    derived from an asset identity (same asset, same key). *)
Definition CreateFromAssetId (a : AssetId) : InstanceId :=
  mkInstanceId (asset_guid a) (asset_subId a).

(** Modelled from the spec: [InstanceId::CreateRandom].  The random uuid
    drawn by the call is an explicit input. *)
Definition CreateRandom (rnd : Uuid) : InstanceId := mkInstanceId rnd 0%N.

(** ** Assets *)

(** The payload of a loaded asset.  [ad_rtti] is the run-time type chain of
    the object: its own type id followed by those of its base classes. *)
Record AssetData : Type := mkAssetData { ad_rtti : list Uuid; ad_payload : N }.

(** [azrtti_istypeof(id, ptr)]: [id] occurs in the run-time type chain of
    the object; [false] on a null pointer. *)
Definition azrtti_istypeof (id : Uuid) (data : option AssetData) : bool :=
  match data with
  | Some d => bool_decide (id ∈ ad_rtti d)
  | None => false
  end.

(** [Data::Asset<AssetData>]: an asset reference; it is ready when its
    payload is loaded. *)
Record Asset : Type := mkAsset {
  GetId : AssetId;
  GetType : AssetType;
  Get : option AssetData
}.

Definition IsReady (a : Asset) : bool :=
  match Get a with Some _ => true | None => false end.

(** [AssetManager::Instance()]: the asset-loading collaborator.
    [GetAsset id type] is the outcome of a blocking load. *)
Record AssetManager : Type := mkAssetManager {
  GetAsset : AssetId → AssetType → Asset
}.

(** ** Observable events *)

Inductive Mutex : Type := HandlersMutex | DatabaseMutex.

Inductive Diagnostic : Type :=
  | HandlerAlreadyExists
  | HandlerNotSubclass (assetType base : AssetType)
  | NoHandlerFound (assetType : AssetType)
  | CannotDeleteInstance (assetType : AssetType)
  | DifferentAssetUsed.

Definition ptr : Type := positive.

Inductive Event : Type :=
  | EvSharedLock (m : Mutex)
  | EvUniqueLock (m : Mutex)
  | EvAssert (d : Diagnostic)
  | EvError (d : Diagnostic)
  | EvWarning (d : Diagnostic)
  | EvGetAsset (id : AssetId) (ty : AssetType)
  | EvCreateCall (ty : AssetType)
  | EvDeleteCall (p : ptr).

#[global] Instance Mutex_eq_dec : EqDecision Mutex.
Proof. solve_decision. Defined.
#[global] Instance Diagnostic_eq_dec : EqDecision Diagnostic.
Proof. solve_decision. Defined.
#[global] Instance Event_eq_dec : EqDecision Event.
Proof. solve_decision. Defined.

Definition is_create_call (e : Event) : bool :=
  match e with EvCreateCall _ => true | _ => false end.

Definition is_delete_call (p : ptr) (e : Event) : bool :=
  match e with EvDeleteCall q => bool_decide (q = p) | _ => false end.

Definition is_handlers_lock (e : Event) : bool :=
  match e with
  | EvSharedLock HandlersMutex | EvUniqueLock HandlersMutex => true
  | _ => false
  end.

Definition is_get_asset (e : Event) : bool :=
  match e with EvGetAsset _ _ => true | _ => false end.

Definition count_events (f : Event → bool) (tr : list Event) : nat :=
  length (filter (λ e, f e = true) tr).

(** 32-bit two's complement wrap-around of the atomic use count. *)
Definition wrap_int32 (z : Z) : Z := (z + 2^31) mod 2^32 - 2^31.

(** ** The database, the heap and the state monad *)

Section Model.

(** [T] is the template parameter [Type]: the part of an instance that
    the derived class adds to [InstanceData]. *)
Context {T : Type}.

(** The base class [InstanceData] (fields set by the database) with the
    derived object.  [m_parentDatabase] holds the address of the owning
    database, [None] for a standalone object. *)
Record InstanceData : Type := mkInstanceData {
  m_id : InstanceId;
  m_assetId : AssetId;
  m_assetType : AssetType;
  m_parentDatabase : option ptr;
  m_useCount : Z;
  m_object : T
}.

Local Abbreviation Heap := (gmap ptr InstanceData).

(** What a create function hands back in its [Instance<Type>]: an object
    it has just allocated, given by the part the derived class adds, or
    an instance that is already alive (one taken from a pool or a cache
    of the client, see the usage notes of [CreateFunction]). *)
Inductive Created : Type :=
  | NewObject (obj : T)
  | LiveInstance (p : ptr).

(** [InstanceHandler<Type>].  [m_createFunction] yields the instance for
    an asset payload, or no instance.  The function is present by
    typing, which is what the assertion at the top of [AddHandler] asks
    for.  [m_deleteFunction] takes ownership of the instance. *)
Record InstanceHandler : Type := mkInstanceHandler {
  m_createFunction : AssetData → option Created;
  m_deleteFunction : ptr → Heap → Heap
}.

(** The default [m_deleteFunction]: [delete t]. *)
Definition default_delete : ptr → Heap → Heap := λ p h, delete p h.

(** The data members of [InstanceDatabase<Type>]; [this_ptr] is the
    address of the object ([this]). *)
Record InstanceDatabase : Type := mkInstanceDatabase {
  m_handlers : gmap AssetType InstanceHandler;
  m_database : gmap InstanceId ptr;
  m_baseAssetType : AssetType;
  this_ptr : ptr
}.

Record World : Type := mkWorld {
  w_db : InstanceDatabase;
  w_heap : Heap;
  w_trace : list Event
}.

Definition set_useCount (d : InstanceData) (c : Z) : InstanceData :=
  mkInstanceData (m_id d) (m_assetId d) (m_assetType d)
    (m_parentDatabase d) c (m_object d).

Definition M (A : Type) : Type := World → A * World.

Definition ret {A} (a : A) : M A := λ w, (a, w).

Definition bind {A B} (m : M A) (k : A → M B) : M B :=
  λ w, let (a, w') := m w in k a w'.

Definition exec {A} (m : M A) (w : World) : World := (m w).2.
Definition eval {A} (m : M A) (w : World) : A := (m w).1.

Definition emit (e : Event) : M unit :=
  λ w, (tt, mkWorld (w_db w) (w_heap w) (w_trace w ++ [e])).

Definition get_db : M InstanceDatabase := λ w, (w_db w, w).

Definition put_db (db : InstanceDatabase) : M unit :=
  λ w, (tt, mkWorld db (w_heap w) (w_trace w)).

Definition get_heap : M Heap := λ w, (w_heap w, w).

Definition put_heap (h : Heap) : M unit :=
  λ w, (tt, mkWorld (w_db w) h (w_trace w)).

End Model.

Arguments InstanceData : clear implicits.
Arguments Created : clear implicits.
Arguments InstanceHandler : clear implicits.
Arguments InstanceDatabase : clear implicits.
Arguments World : clear implicits.
Arguments M : clear implicits.

(** The heap of instances, by address. *)
Abbreviation Heap T := (gmap ptr (InstanceData T)).

Notation "x <- m ;; k" := (bind m (λ x, k))
  (at level 100, m at next level, right associativity).
Notation "m ;;; k" := (bind m (λ _, k))
  (at level 100, right associativity).

(** Outcome of a block of a function body: an early [return], or control
    reaching the end of the block with the locals that are live there. *)
Inductive Flow (A : Type) : Type :=
  | Return (r : option ptr)
  | Continue (a : A).
Arguments Return {A} r.
Arguments Continue {A} a.

(** [unordered_map::emplace]: inserts only when the key is absent; the
    boolean is [result.second]. *)
Definition emplace `{Countable K} {V} (k : K) (v : V) (m : gmap K V)
  : gmap K V * bool :=
  match m !! k with
  | Some _ => (m, false)
  | None => (<[k := v]> m, true)
  end.

(** ** The operations of the class *)

Section Operations.

Context {T : Type}.

(** [debug] is the build flavour ([AZ_DEBUG_BUILD]); [assetManager] is
    the process-wide [AssetManager]. *)
Variable debug : bool.
Variable assetManager : AssetManager.

(** Modelled from the spec: the tracing macros of AzCore/Debug/Trace.h
    (not part of the sources).  Diagnostics are reported in debug builds
    and compiled out in production.  A reported diagnostic is recorded in
    the trace; control continues with the statement that follows it. *)
Definition AZ_Assert (cond : bool) (d : Diagnostic) : M T unit :=
  if debug && negb cond then emit (EvAssert d) else ret tt.

Definition AZ_Error (cond : bool) (d : Diagnostic) : M T unit :=
  if debug && negb cond then emit (EvError d) else ret tt.

Definition AZ_Warning (cond : bool) (d : Diagnostic) : M T unit :=
  if debug && negb cond then emit (EvWarning d) else ret tt.

Definition shared_lock (m : Mutex) : M T unit := emit (EvSharedLock m).
Definition unique_lock (m : Mutex) : M T unit := emit (EvUniqueLock m).

(** The constructor: both maps start empty. *)
Definition InstanceDatabase_new (assetType : AssetType) (this : ptr)
  : World T :=
  mkWorld (mkInstanceDatabase ∅ ∅ assetType this) ∅ [].

Definition set_handlers (hs : gmap AssetType (InstanceHandler T))
  : M T unit :=
  db <- get_db ;;
  put_db (mkInstanceDatabase hs (m_database db) (m_baseAssetType db)
            (this_ptr db)).

Definition set_database (tbl : gmap InstanceId ptr) : M T unit :=
  db <- get_db ;;
  put_db (mkInstanceDatabase (m_handlers db) tbl (m_baseAssetType db)
            (this_ptr db)).

(** Lines 262-270.  The assertion of line 265 asks for a create function,
    which every [InstanceHandler] has by typing. *)
Definition AddHandler (assetType : AssetType) (handler : InstanceHandler T)
  : M T unit :=
  unique_lock HandlersMutex ;;;
  db <- get_db ;;
  let result := emplace assetType handler (m_handlers db) in
  set_handlers result.1 ;;;
  AZ_Assert result.2 HandlerAlreadyExists.

(** Lines 272-279. *)
Definition AddHandler_create (assetType : AssetType)
    (createFunction : AssetData → option (Created T)) : M T unit :=
  let instanceHandler := mkInstanceHandler createFunction default_delete in
  AddHandler assetType instanceHandler.

(** Lines 281-286. *)
Definition RemoveHandler (assetType : AssetType) : M T unit :=
  unique_lock HandlersMutex ;;;
  db <- get_db ;;
  set_handlers (delete assetType (m_handlers db)).

(** Lines 288-305.  [Some h] stands for [true] with [handlerOut = h]. *)
Definition FindHandler (assetType : AssetType)
  : M T (option (InstanceHandler T)) :=
  shared_lock HandlersMutex ;;;
  db <- get_db ;;
  match m_handlers db !! assetType with
  | Some handler => ret (Some handler)
  | None => ret None
  end.

(** Modelled from the spec: the reference-counting handle
    ([Data::Instance<Type>] and [InstanceData::add_ref] of
    AtomCore/Instance/InstanceData.h are not part of the sources).
    Taking a handle increments the use count of the instance. *)
Definition add_ref (p : ptr) : M T unit :=
  h <- get_heap ;;
  put_heap (alter (λ d, set_useCount d (wrap_int32 (m_useCount d + 1))) p h).

(** Conversion of a raw [Type*] to [Data::Instance<Type>]. *)
Definition Instance_from_ptr (p : ptr) : M T (option ptr) :=
  add_ref p ;;; ret (Some p).

(** Lines 307-317. *)
Definition Find (id : InstanceId) : M T (option ptr) :=
  shared_lock DatabaseMutex ;;;
  db <- get_db ;;
  match m_database db !! id with
  | Some p => Instance_from_ptr p
  | None => ret None
  end.

(** Lines 455-478. *)
Definition ValidateSameAsset (instance : ptr) (asset : Asset) : M T unit :=
  if debug then
    h <- get_heap ;;
    match h !! instance with
    | Some d =>
        AZ_Error (bool_decide (m_assetId d = GetId asset)) DifferentAssetUsed
    | None => ret tt
    end
  else ret tt.

(** [aznew]: a fresh object whose base-class fields have their default
    values; the handle the create function returns to it holds the first
    reference. *)
Definition aznew (obj : T) : M T ptr :=
  h <- get_heap ;;
  let p := fresh (dom h) in
  put_heap (<[p := mkInstanceData InstanceId_default
                     (mkAssetId Uuid_CreateNull 0%N) Uuid_CreateNull None
                     1 obj]> h) ;;;
  ret p.

(** The call [instanceHandler.m_createFunction(assetLocal.Get())].  The
    result is a handle: to the object the function allocated, or to the
    live instance it names, whose use count the handle raises.  A handle
    exists only to an instance that is alive, so [LiveInstance p] with
    nothing at [p] is the null handle. *)
Definition call_createFunction (handler : InstanceHandler T)
    (assetLocal : Asset) : M T (option ptr) :=
  emit (EvCreateCall (GetType assetLocal)) ;;;
  match Get assetLocal with
  | Some data =>
      match m_createFunction handler data with
      | Some (NewObject obj) => p <- aznew obj ;; ret (Some p)
      | Some (LiveInstance p) =>
          h <- get_heap ;;
          match h !! p with
          | Some _ => Instance_from_ptr p
          | None => ret None
          end
      | None => ret None
      end
  | None => ret None
  end.

(** The call [instanceHandler.m_deleteFunction(instance)]. *)
Definition call_deleteFunction (handler : InstanceHandler T)
    (instance : ptr) : M T unit :=
  emit (EvDeleteCall instance) ;;;
  h <- get_heap ;;
  put_heap (m_deleteFunction handler instance h).

(** Line 400: [m_database.emplace(id, instance.get())]. *)
Definition database_emplace (id : InstanceId) (p : ptr) : M T bool :=
  db <- get_db ;;
  let result := emplace id p (m_database db) in
  set_database result.1 ;;;
  ret result.2.

(** Lines 396-399: the four assignments to the instance the create
    function returned. *)
Definition stamp (p : ptr) (id : InstanceId) (assetLocal : Asset)
  : M T unit :=
  db <- get_db ;;
  h <- get_heap ;;
  put_heap (alter (λ d, mkInstanceData id (GetId assetLocal)
                          (GetType assetLocal) (Some (this_ptr db))
                          (m_useCount d) (m_object d))
              p h).

(** Lines 322-338: the validity check and the search under the shared
    lock. *)
Definition FindOrCreate_shared (id : InstanceId) (asset : Asset)
  : M T (Flow unit) :=
  if negb (IsValid id) then ret (Return None)
  else
    shared_lock DatabaseMutex ;;;
    db <- get_db ;;
    match m_database db !! id with
    | Some p =>
        ValidateSameAsset p asset ;;;
        r <- Instance_from_ptr p ;;
        ret (Return r)
    | None => ret (Continue tt)
    end.

(** Lines 340-356: the blocking load; yields [assetLocal]. *)
Definition FindOrCreate_load (asset : Asset) : M T (Flow Asset) :=
  let assetLocal := asset in
  if negb (IsReady assetLocal) then
    emit (EvGetAsset (GetId assetLocal) (GetType assetLocal)) ;;;
    let assetLocal :=
      GetAsset assetManager (GetId assetLocal) (GetType assetLocal) in
    if negb (IsReady assetLocal) then ret (Return None)
    else ret (Continue assetLocal)
  else ret (Continue assetLocal).

(** Lines 358-374: the check against the base asset type. *)
Definition FindOrCreate_check (assetLocal : Asset) : M T (Flow unit) :=
  db <- get_db ;;
  if negb (azrtti_istypeof (m_baseAssetType db) (Get assetLocal)) then
    found <- FindHandler (GetType assetLocal) ;;
    match found with
    | Some _ =>
        AZ_Assert false
          (HandlerNotSubclass (GetType assetLocal) (m_baseAssetType db)) ;;;
        ret (Return None)
    | None => ret (Continue tt)
    end
  else ret (Continue tt).

(** Lines 376-410: the second search and the insertion under the
    exclusive lock. *)
Definition FindOrCreate_exclusive (id : InstanceId) (asset assetLocal : Asset)
  : M T (option ptr) :=
  unique_lock DatabaseMutex ;;;
  db <- get_db ;;
  match m_database db !! id with
  | Some p =>
      ValidateSameAsset p asset ;;;
      Instance_from_ptr p
  | None =>
      found <- FindHandler (GetType assetLocal) ;;
      match found with
      | Some instanceHandler =>
          instance <- call_createFunction instanceHandler assetLocal ;;
          match instance with
          | Some p =>
              stamp p id assetLocal ;;;
              database_emplace id p ;;;
              ret (Some p)
          | None => ret None
          end
      | None =>
          AZ_Warning false (NoHandlerFound (GetType assetLocal)) ;;;
          ret None
      end
  end.

(** Lines 319-411: the four blocks in sequence. *)
Definition FindOrCreate (id : InstanceId) (asset : Asset)
  : M T (option ptr) :=
  f1 <- FindOrCreate_shared id asset ;;
  match f1 with
  | Return r => ret r
  | Continue _ =>
      f2 <- FindOrCreate_load asset ;;
      match f2 with
      | Return r => ret r
      | Continue assetLocal =>
          f3 <- FindOrCreate_check assetLocal ;;
          match f3 with
          | Return r => ret r
          | Continue _ => FindOrCreate_exclusive id asset assetLocal
          end
      end
  end.

(** Lines 413-417. *)
Definition FindOrCreate_asset (asset : Asset) : M T (option ptr) :=
  FindOrCreate (CreateFromAssetId (GetId asset)) asset.

(** Lines 419-423; [rnd] is the uuid drawn by [CreateRandom]. *)
Definition Create (rnd : Uuid) (asset : Asset) : M T (option ptr) :=
  FindOrCreate (CreateRandom rnd) asset.

End Operations.

(** ** The release protocol *)

Section Release.

Context {T : Type}.
Variable debug : bool.

(** [m_useCount.compare_exchange_strong(expected, desired)] on the
    instance at [p]. *)
Definition compare_exchange_strong (p : ptr) (expected desired : Z)
  : M T bool :=
  h <- get_heap ;;
  match h !! p with
  | Some d =>
      if Z.eqb (m_useCount d) expected then
        put_heap (<[p := set_useCount d desired]> h) ;;; ret true
      else ret false
  | None => ret false
  end.

(** Lines 440-451: the body of the conditional in [ReleaseInstance]. *)
Definition erase_and_delete (instance : ptr) : M T unit :=
  h <- get_heap ;;
  match h !! instance with
  | Some d =>
      db <- get_db ;;
      set_database (delete (m_id d) (m_database db)) ;;;
      found <- FindHandler (m_assetType d) ;;
      match found with
      | Some instanceHandler => call_deleteFunction instanceHandler instance
      | None => AZ_Assert debug false (CannotDeleteInstance (m_assetType d))
      end
  | None => ret tt
  end.

(** Lines 425-453.  The three conjuncts of the condition are evaluated
    left to right. *)
Definition ReleaseInstance (instance : ptr) (instanceId : InstanceId)
  : M T unit :=
  unique_lock DatabaseMutex ;;;
  db <- get_db ;;
  let instanceItr := m_database db !! instanceId in
  let expectedRefCount := 0 in
  match instanceItr with
  | Some second =>
      if bool_decide (second = instance) then
        exchanged <- compare_exchange_strong instance expectedRefCount (-1) ;;
        if exchanged then erase_and_delete instance else ret tt
      else ret tt
  | None => ret tt
  end.

(** Modelled from the spec: dropping a handle ([InstanceData::release] of
    AtomCore/Instance/InstanceData.h is not part of the sources).  The
    use count is decremented and, on the transition from 1 to 0, the
    database is asked to release the instance under its key. *)
Definition fetch_sub (p : ptr) : M T (option (InstanceData T)) :=
  h <- get_heap ;;
  match h !! p with
  | Some d =>
      put_heap (<[p := set_useCount d (wrap_int32 (m_useCount d - 1))]> h) ;;;
      ret (Some d)
  | None => ret None
  end.

Definition release (p : ptr) : M T unit :=
  previous <- fetch_sub p ;;
  match previous with
  | Some d =>
      if Z.eqb (m_useCount d) 1 then ReleaseInstance p (m_id d) else ret tt
  | None => ret tt
  end.

End Release.

(** ** Histories of calls *)

Section Histories.

Context {T : Type}.
Variable debug : bool.
Variable assetManager : AssetManager.

(** A call made by client code: the public member functions, and the
    copy and drop of a handle. *)
Inductive Call : Type :=
  | CallAddHandler (assetType : AssetType) (handler : InstanceHandler T)
  | CallAddHandler_create (assetType : AssetType)
      (createFunction : AssetData → option (Created T))
  | CallRemoveHandler (assetType : AssetType)
  | CallFind (id : InstanceId)
  | CallFindOrCreate (id : InstanceId) (asset : Asset)
  | CallFindOrCreate_asset (asset : Asset)
  | CallCreate (rnd : Uuid) (asset : Asset)
  | CallCopyHandle (p : ptr)
  | CallDropHandle (p : ptr).

Definition perform (c : Call) : M T unit :=
  match c with
  | CallAddHandler assetType handler => AddHandler debug assetType handler
  | CallAddHandler_create assetType f => AddHandler_create debug assetType f
  | CallRemoveHandler assetType => RemoveHandler assetType
  | CallFind id => Find id ;;; ret tt
  | CallFindOrCreate id asset =>
      FindOrCreate debug assetManager id asset ;;; ret tt
  | CallFindOrCreate_asset asset =>
      FindOrCreate_asset debug assetManager asset ;;; ret tt
  | CallCreate rnd asset => Create debug assetManager rnd asset ;;; ret tt
  | CallCopyHandle p => add_ref p
  | CallDropHandle p => release debug p
  end.

Definition history (cs : list Call) (w : World T) : World T :=
  foldl (λ w c, exec (perform c) w) w cs.

(** The states of a database from its construction onwards. *)
Inductive reachable : World T → Prop :=
  | reachable_new assetType this :
      reachable (InstanceDatabase_new assetType this)
  | reachable_call w c :
      reachable w → reachable (exec (perform c) w).

End Histories.

Arguments Call : clear implicits.

(** ** Threads calling [FindOrCreate]

    The regions of [FindOrCreate] that run under [m_databaseMutex] are
    mutually exclusive with every writer of the table, and the regions in
    between touch no shared data of the table.  A thread therefore advances
    by whole blocks, and a concurrent execution is an interleaving of
    blocks chosen by a schedule. *)

Section Threads.

Context {T : Type}.
Variable debug : bool.
Variable assetManager : AssetManager.

Inductive Pc : Type :=
  | AtShared
  | AtLoad
  | AtCheck (assetLocal : Asset)
  | AtExclusive (assetLocal : Asset)
  | Finished (r : option ptr).

Record Thread : Type := mkThread {
  th_id : InstanceId;
  th_asset : Asset;
  th_pc : Pc
}.

Definition spawn (id : InstanceId) (asset : Asset) : Thread :=
  mkThread id asset AtShared.

Definition at_pc (t : Thread) (pc : Pc) : Thread :=
  mkThread (th_id t) (th_asset t) pc.

(** One block of [FindOrCreate] run by thread [t]. *)
Definition thread_step (t : Thread) : M T Thread :=
  match th_pc t with
  | AtShared =>
      f <- FindOrCreate_shared debug (th_id t) (th_asset t) ;;
      ret (at_pc t (match f with
                    | Return r => Finished r
                    | Continue _ => AtLoad
                    end))
  | AtLoad =>
      f <- FindOrCreate_load assetManager (th_asset t) ;;
      ret (at_pc t (match f with
                    | Return r => Finished r
                    | Continue assetLocal => AtCheck assetLocal
                    end))
  | AtCheck assetLocal =>
      f <- FindOrCreate_check debug assetLocal ;;
      ret (at_pc t (match f with
                    | Return r => Finished r
                    | Continue _ => AtExclusive assetLocal
                    end))
  | AtExclusive assetLocal =>
      r <- FindOrCreate_exclusive debug (th_id t) (th_asset t) assetLocal ;;
      ret (at_pc t (Finished r))
  | Finished r => ret t
  end.

Definition Config : Type := list Thread * World T.

(** The scheduler lets thread [i] run its next block. *)
Definition schedule (c : Config) (i : nat) : Config :=
  match c.1 !! i with
  | Some t => let (t', w') := thread_step t c.2 in (<[i := t']> c.1, w')
  | None => c
  end.

Definition run (sched : list nat) (c : Config) : Config :=
  foldl schedule c sched.

Definition finished (t : Thread) : bool :=
  match th_pc t with Finished _ => true | _ => false end.

End Threads.

Arguments Config : clear implicits.

(** ** Teardown and the binding to the process environment

    [ms_instance] is a static [EnvironmentVariable]: each binary module of
    the process has its own handle, and all handles of one instance type
    name the same variable of the environment, the one called
    [GetEnvironmentName()]. *)

(** What the destructor and the static functions report. *)
Inductive LifecycleEvent : Type :=
  | LeakedInstance (id : InstanceId)
  | StillActiveReferences
  | AlreadyCreated
  | NotCreated
  | NotInitialized.

#[global] Instance LifecycleEvent_eq_dec : EqDecision LifecycleEvent.
Proof. solve_decision. Defined.

Module Singleton.

Section Binding.

Context {T : Type}.
Variable debug : bool.

(** Lines 245-260, the destructor: in a debug build one line per entry
    still in the table (in the iteration order of the map), then the error
    when the table is not empty. *)
Definition InstanceDatabase_dtor (db : InstanceDatabase T)
  : list LifecycleEvent :=
  (if debug
   then (λ keyValue : InstanceId * ptr, LeakedInstance keyValue.1)
          <$> map_to_list (m_database db)
   else []) ++
  (if debug && negb (bool_decide (m_database db = ∅))
   then [StillActiveReferences] else []).

(** The process: the environment variable of this instance type (absent,
    holding [nullptr], or holding the database), the modules whose
    [ms_instance] is bound to it, the heap and the two logs. *)
Record Process : Type := mkProcess {
  env_variable : option (option (InstanceDatabase T));
  ms_instance : gset nat;
  p_heap : Heap T;
  p_trace : list Event;
  p_lifecycle : list LifecycleEvent
}.

Definition is_bound (m : nat) (ps : Process) : bool :=
  bool_decide (m ∈ ms_instance ps).

Definition set_variable (v : option (option (InstanceDatabase T)))
    (ps : Process) : Process :=
  mkProcess v (ms_instance ps) (p_heap ps) (p_trace ps) (p_lifecycle ps).

Definition bind_handle (m : nat) (ps : Process) : Process :=
  mkProcess (env_variable ps) ({[m]} ∪ ms_instance ps) (p_heap ps)
    (p_trace ps) (p_lifecycle ps).

Definition report (e : LifecycleEvent) (ps : Process) : Process :=
  mkProcess (env_variable ps) (ms_instance ps) (p_heap ps) (p_trace ps)
    (p_lifecycle ps ++ [e]).

(** The tracing macro of the static functions, as [AZ_Assert] above. *)
Definition static_Assert (cond : bool) (e : LifecycleEvent) (ps : Process)
  : Process :=
  if debug && negb cond then report e ps else ps.

(** Modelled from the spec: [Environment::CreateVariable] (AzCore's
    Environment.h is not part of the sources).  The first module to ask
    creates the variable, holding [nullptr]; later callers bind to the
    existing one. *)
Definition CreateVariable (m : nat) (ps : Process) : Process :=
  bind_handle m
    (match env_variable ps with
     | Some _ => ps
     | None => set_variable (Some None) ps
     end).

(** Modelled from the spec: [Environment::FindVariable]; the handle is
    bound only when the variable exists. *)
Definition FindVariable (m : nat) (ps : Process) : Process :=
  match env_variable ps with
  | Some _ => bind_handle m ps
  | None => ps
  end.

(** [ms_instance.Get()] and [*ms_instance] on a bound handle. *)
Definition Get (ps : Process) : option (InstanceDatabase T) :=
  match env_variable ps with
  | Some v => v
  | None => None
  end.

Definition has_database (ps : Process) : bool :=
  match Get ps with Some _ => true | None => false end.

(** Lines 480-484, the constructor, at the address chosen by [aznew]. *)
Definition InstanceDatabase_ctor (assetType : AssetType) (this : ptr)
  : InstanceDatabase T :=
  mkInstanceDatabase ∅ ∅ assetType this.

(** Lines 486-500; [m] is the calling module, [this] the address of the
    new object. *)
Definition Create (m : nat) (assetType : AssetType) (this : ptr)
    (ps : Process) : Process :=
  let ps :=
    static_Assert (negb (is_bound m ps) || negb (has_database ps))
      AlreadyCreated ps in
  let ps := if negb (is_bound m ps) then CreateVariable m ps else ps in
  if negb (has_database ps)
  then set_variable (Some (Some (InstanceDatabase_ctor assetType this))) ps
  else ps.

(** Lines 517-526. *)
Definition IsReady (m : nat) (ps : Process) : bool * Process :=
  let ps := if negb (is_bound m ps) then FindVariable m ps else ps in
  (is_bound m ps && has_database ps, ps).

(** Lines 528-538.  The reference returned is the database the variable
    holds; [None] when the handle is unbound or holds [nullptr], where the
    dereference is undefined. *)
Definition Instance (m : nat) (ps : Process)
  : option (InstanceDatabase T) * Process :=
  let ps := if negb (is_bound m ps) then FindVariable m ps else ps in
  let ps :=
    static_Assert (is_bound m ps && has_database ps) NotInitialized ps in
  (if is_bound m ps then Get ps else None, ps).

(** A member function called on [Instance()]. *)
Definition on_Instance {A} (m : nat) (op : M T A) (ps : Process)
  : option (A * Process) :=
  let (db, ps) := Instance m ps in
  match db with
  | Some db =>
      let (a, w) := op (mkWorld db (p_heap ps) (p_trace ps)) in
      Some (a, mkProcess (Some (Some (w_db w))) (ms_instance ps) (w_heap w)
                 (w_trace w) (p_lifecycle ps))
  | None => None
  end.

(** Lines 502-507. *)
Definition Create_handler (m : nat) (assetType : AssetType) (this : ptr)
    (handler : InstanceHandler T) (ps : Process) : option Process :=
  let ps := Create m assetType this ps in
  snd <$> on_Instance m (AddHandler debug assetType handler) ps.

(** Lines 509-515.  [None] when the handle of the module is unbound,
    where [*ms_instance] is undefined; deleting [nullptr] does nothing. *)
Definition Destroy (m : nat) (ps : Process) : option Process :=
  let ps := static_Assert (is_bound m ps) NotCreated ps in
  if is_bound m ps then
    let reports :=
      match Get ps with
      | Some db => InstanceDatabase_dtor db
      | None => []
      end in
    Some (set_variable (Some None)
            (mkProcess (env_variable ps) (ms_instance ps) (p_heap ps)
               (p_trace ps) (p_lifecycle ps ++ reports)))
  else None.

(** A process in which no module has touched the database yet. *)
Definition start : Process := mkProcess None ∅ ∅ [] [].

End Binding.

Arguments Process : clear implicits.

End Singleton.

(** ** A sample database

    A database of instances whose derived part is a number, with base asset
    type [1] and one handler for the asset type [7], which derives from
    [1]. *)

Module Sample.

Definition baseType : AssetType := 1%N.
Definition textureType : AssetType := 7%N.
Definition foreignType : AssetType := 9%N.

Definition textureData : AssetData := mkAssetData [7%N; 1%N] 42%N.
Definition foreignData : AssetData := mkAssetData [9%N] 13%N.

Definition textureId : AssetId := mkAssetId 5%N 0%N.
Definition foreignId : AssetId := mkAssetId 6%N 0%N.

Definition textureAsset : Asset :=
  mkAsset textureId textureType (Some textureData).
Definition textureUnloaded : Asset := mkAsset textureId textureType None.
Definition foreignAsset : Asset :=
  mkAsset foreignId foreignType (Some foreignData).
Definition missingAsset : Asset :=
  mkAsset (mkAssetId 8%N 0%N) textureType None.

(** The asset manager loads the texture and nothing else. *)
Definition manager : AssetManager :=
  mkAssetManager (λ id ty,
    if bool_decide (id = textureId) then mkAsset id ty (Some textureData)
    else mkAsset id ty None).

Definition handler : InstanceHandler N :=
  mkInstanceHandler (λ data, Some (NewObject (ad_payload data)))
    default_delete.

Definition otherHandler : InstanceHandler N :=
  mkInstanceHandler (λ data, Some (NewObject (ad_payload data + 1)%N))
    default_delete.

Definition keyA : InstanceId := mkInstanceId 100%N 0%N.
Definition keyB : InstanceId := mkInstanceId 101%N 0%N.

(** The database after construction and registration of the handler. *)
Definition world0 (debug : bool) : World N :=
  exec (AddHandler debug textureType handler)
    (InstanceDatabase_new baseType 1%positive).

(** The database after [FindOrCreate(keyA, textureAsset)]. *)
Definition world1 (debug : bool) : World N :=
  exec (FindOrCreate debug manager keyA textureAsset) (world0 debug).

(** The same database when the client drops its only handle: the state
    in which [release] calls [ReleaseInstance]. *)
Definition idle (debug : bool) : World N :=
  exec (fetch_sub 1%positive) (world1 debug).

(** As [idle], but the handler was removed while the instance was
    alive. *)
Definition orphan (debug : bool) : World N :=
  exec (fetch_sub 1%positive)
    (exec (RemoveHandler textureType) (world1 debug)).

(** Three threads, interleaved block by block, the last one late. *)
Definition interleaved : list nat :=
  [0; 1; 0; 1; 2; 1; 0; 0; 1; 2; 2; 2]%nat.

(** The database after a second construction, under [keyB]. *)
Definition world2 (debug : bool) : World N :=
  exec (FindOrCreate debug manager keyB textureAsset) (world1 debug).

(** [world2] when the client drops its only handle to the first
    instance. *)
Definition idle2 (debug : bool) : World N :=
  exec (fetch_sub 1%positive) (world2 debug).

(** A client that serves every asset of one type from a single object
    that is already alive: its create function hands back the instance at
    address 1, and its delete function leaves it where it is. *)
Definition pooledType : AssetType := 11%N.
Definition pooledData : AssetData := mkAssetData [11%N; 1%N] 0%N.
Definition pooledAsset : Asset :=
  mkAsset (mkAssetId 12%N 0%N) pooledType (Some pooledData).

Definition pooledHandler : InstanceHandler N :=
  mkInstanceHandler (λ _, Some (LiveInstance 1%positive)) (λ _ h, h).

(** [world2] with the pooling handler registered as well. *)
Definition pooled (debug : bool) : World N :=
  exec (AddHandler debug pooledType pooledHandler) (world2 debug).

End Sample.

(** The only instance of [Sample.idle] and [Sample.orphan]. *)
Definition idleData : InstanceData N :=
  mkInstanceData Sample.keyA Sample.textureId Sample.textureType
    (Some 1%positive) 0 42%N.

(** ** Vocabulary of the statements *)

Section Vocabulary.

Context {T : Type}.

(** Every key of the instance table is a valid [InstanceId]. *)
Definition keys_valid (w : World T) : Prop :=
  ∀ id p, m_database (w_db w) !! id = Some p → IsValid id = true.

(** [assetLocal] after lines 340-350. *)
Definition loaded (am : AssetManager) (asset : Asset) : Asset :=
  if IsReady asset then asset
  else GetAsset am (GetId asset) (GetType asset).

Definition load_events (asset : Asset) : list Event :=
  if IsReady asset then [] else [EvGetAsset (GetId asset) (GetType asset)].

(** What [ValidateSameAsset] reports. *)
Definition validate_events (debug : bool) (w : World T) (p : ptr)
    (asset : Asset) : list Event :=
  if debug then
    match w_heap w !! p with
    | Some d =>
        if bool_decide (m_assetId d = GetId asset) then []
        else [EvError DifferentAssetUsed]
    | None => []
    end
  else [].

Definition use_count (w : World T) (p : ptr) : option Z :=
  m_useCount <$> w_heap w !! p.

Definition creations (w : World T) : nat :=
  count_events is_create_call (w_trace w).

Definition deletions (p : ptr) (w : World T) : nat :=
  count_events (is_delete_call p) (w_trace w).

(** The world with further events recorded. *)
Definition log (w : World T) (es : list Event) : World T :=
  mkWorld (w_db w) (w_heap w) (w_trace w ++ es).

(** The world after a handle to the stored instance [p] was handed out
    under [lock]. *)
Definition handed_out (debug : bool) (lock : Event) (w : World T) (p : ptr)
    (asset : Asset) : World T :=
  mkWorld (w_db w)
    (alter (λ d, set_useCount d (wrap_int32 (m_useCount d + 1))) p (w_heap w))
    (w_trace w ++ lock :: validate_events debug w p asset).

(** A handler whose create function hands back only objects it has just
    allocated, never an instance that is already alive. *)
Definition allocates (handler : InstanceHandler T) : Prop :=
  ∀ data r, m_createFunction handler data = Some r → ∃ obj, r = NewObject obj.

(** An asset from which the database can construct: it loads, its
    payload derives from the base asset type, and the handler registered
    for its type yields [r], a new object or an instance that is alive
    in [w]. *)
Definition constructible (am : AssetManager) (w : World T) (asset : Asset)
    (handler : InstanceHandler T) (r : Created T) : Prop :=
  ∃ data,
    Get (loaded am asset) = Some data ∧
    azrtti_istypeof (m_baseAssetType (w_db w)) (Some data) = true ∧
    m_handlers (w_db w) !! GetType (loaded am asset) = Some handler ∧
    m_createFunction handler data = Some r ∧
    match r with
    | NewObject _ => True
    | LiveInstance p => is_Some (w_heap w !! p)
    end.

(** The new instance as stamped by lines 396-399. *)
Definition stamped (w : World T) (id : InstanceId) (assetLocal : Asset)
    (obj : T) : InstanceData T :=
  mkInstanceData id (GetId assetLocal) (GetType assetLocal)
    (Some (this_ptr (w_db w))) 1 obj.

(** The live instance [d] as stamped by lines 396-399, with the reference
    of the returned handle. *)
Definition restamped (w : World T) (id : InstanceId) (assetLocal : Asset)
    (d : InstanceData T) : InstanceData T :=
  mkInstanceData id (GetId assetLocal) (GetType assetLocal)
    (Some (this_ptr (w_db w))) (wrap_int32 (m_useCount d + 1)) (m_object d).

(** The world after the entry [id ↦ p] was made for the instance [d]
    put at [p]. *)
Definition entered (am : AssetManager) (w : World T) (id : InstanceId)
    (asset : Asset) (p : ptr) (d : InstanceData T) : World T :=
  mkWorld
    (mkInstanceDatabase (m_handlers (w_db w))
       (<[id := p]> (m_database (w_db w)))
       (m_baseAssetType (w_db w)) (this_ptr (w_db w)))
    (<[p := d]> (w_heap w))
    (w_trace w ++ EvSharedLock DatabaseMutex :: load_events asset ++
       [EvUniqueLock DatabaseMutex; EvSharedLock HandlersMutex;
        EvCreateCall (GetType (loaded am asset))]).

(** The world after [FindOrCreate] constructed [obj] under [id]. *)
Definition constructed (am : AssetManager) (w : World T) (id : InstanceId)
    (asset : Asset) (obj : T) : World T :=
  entered am w id asset (fresh (dom (w_heap w)))
    (stamped w id (loaded am asset) obj).

(** The world after [FindOrCreate] entered the live instance [d] at [p],
    which the create function handed back, under [id]. *)
Definition reused (am : AssetManager) (w : World T) (id : InstanceId)
    (asset : Asset) (p : ptr) (d : InstanceData T) : World T :=
  entered am w id asset p (restamped w id (loaded am asset) d).

(** The outcomes of [FindOrCreate]: nothing is returned and only events
    are recorded; a stored instance is handed out under the shared lock;
    a new instance is constructed; a live instance that the create
    function handed back is entered. *)
Inductive Outcome (debug : bool) (am : AssetManager) (id : InstanceId)
    (asset : Asset) (w : World T) : option ptr * World T → Prop :=
  | NotFound es :
      (IsValid id = false → es = []) →
      Outcome debug am id asset w (None, log w es)
  | Hit p :
      IsValid id = true → m_database (w_db w) !! id = Some p →
      Outcome debug am id asset w
        (Some p, handed_out debug (EvSharedLock DatabaseMutex) w p asset)
  | Constructed handler obj :
      IsValid id = true → m_database (w_db w) !! id = None →
      constructible am w asset handler (NewObject obj) →
      Outcome debug am id asset w
        (Some (fresh (dom (w_heap w))), constructed am w id asset obj)
  | Reused handler p d :
      IsValid id = true → m_database (w_db w) !! id = None →
      constructible am w asset handler (LiveInstance p) →
      w_heap w !! p = Some d →
      Outcome debug am id asset w (Some p, reused am w id asset p d).

(** Blocks of [FindOrCreate] that a thread at [pc] still has to run. *)
Definition remaining (pc : Pc) : nat :=
  match pc with
  | AtShared => 4
  | AtLoad => 3
  | AtCheck _ => 2
  | AtExclusive _ => 1
  | Finished _ => 0
  end.

End Vocabulary.

(** ** Vocabulary of the concurrent statement *)

Section RaceVocabulary.

Context {T : Type}.

(** Number of turns the schedule gives to thread [i]. *)
Definition turns (i : nat) (sched : list nat) : nat :=
  length (filter (λ j, j = i) sched).

(** Blocks that thread [i] of the configuration still has to run. *)
Definition remaining_at (c : Config T) (i : nat) : nat :=
  match c.1 !! i with
  | Some t => remaining (th_pc t)
  | None => 0
  end.

(** Where a thread racing for [id] with [asset] can be, given the entry
    [winner] that the table holds for [id]: in one of the four blocks
    with [assetLocal] the loaded asset, or returned with the winner's
    instance. *)
Definition pc_ok (am : AssetManager) (asset : Asset) (winner : option ptr)
    (pc : Pc) : Prop :=
  match pc with
  | AtShared | AtLoad => True
  | AtCheck assetLocal | AtExclusive assetLocal =>
      assetLocal = loaded am asset
  | Finished r => is_Some winner ∧ r = winner
  end.

Definition thread_ok (am : AssetManager) (id : InstanceId) (asset : Asset)
    (winner : option ptr) (t : Thread) : Prop :=
  th_id t = id ∧ th_asset t = asset ∧ pc_ok am asset winner (th_pc t).

(** Constructions a race on [id] started in [w0] has made once the entry
    of [id] is [winner]: one if the entry was absent in [w0] and is there
    now, none otherwise. *)
Definition constructions_due (w0 : World T) (id : InstanceId)
    (winner : option ptr) : nat :=
  match m_database (w_db w0) !! id, winner with
  | None, Some _ => 1
  | _, _ => 0
  end.

(** The world of a race on [id] started in [w0]: the entry of [id] is
    [winner], an entry that was there in [w0] is still the winner, the
    create function ran as often as is due, the registry is the one of
    [w0], and the instances alive in [w0] are still alive. *)
Definition race_world (w0 : World T) (id : InstanceId)
    (winner : option ptr) (w : World T) : Prop :=
  m_database (w_db w) !! id = winner ∧
  (is_Some (m_database (w_db w0) !! id) →
     winner = m_database (w_db w0) !! id) ∧
  creations w = (creations w0 + constructions_due w0 id winner)%nat ∧
  m_handlers (w_db w) = m_handlers (w_db w0) ∧
  m_baseAssetType (w_db w) = m_baseAssetType (w_db w0) ∧
  (∀ q, is_Some (w_heap w0 !! q) → is_Some (w_heap w !! q)).

(** The invariant of the race. *)
Definition race_inv (am : AssetManager) (w0 : World T) (id : InstanceId)
    (asset : Asset) (c : Config T) : Prop :=
  ∃ winner,
    race_world w0 id winner c.2 ∧
    Forall (thread_ok am id asset winner) c.1.

End RaceVocabulary.

(** ** Vocabulary of the further properties *)

Section StoreVocabulary.

Context {T : Type}.

(** A delete function that touches nothing but the instance it is given. *)
Definition local_delete (handler : InstanceHandler T) : Prop :=
  ∀ p (h : Heap T) q, q ≠ p → m_deleteFunction handler p h !! q = h !! q.

Definition handlers_local (w : World T) : Prop :=
  ∀ t handler, m_handlers (w_db w) !! t = Some handler → local_delete handler.

(** Every entry of the table points to a live instance that carries the
    key it is stored under and the address of this database. *)
Definition entries_stamped (w : World T) : Prop :=
  ∀ id p, m_database (w_db w) !! id = Some p →
    ∃ d, w_heap w !! p = Some d ∧ m_id d = id ∧
         m_parentDatabase d = Some (this_ptr (w_db w)).

Definition store_wf (w : World T) : Prop :=
  handlers_local w ∧ entries_stamped w.

(** Every registered handler allocates. *)
Definition handlers_allocate (w : World T) : Prop :=
  ∀ t handler, m_handlers (w_db w) !! t = Some handler → allocates handler.

(** Calls that register only handlers that own their instances: the
    create function allocates and the delete function is local. *)
Definition call_owning (c : Call T) : Prop :=
  match c with
  | CallAddHandler _ handler => local_delete handler ∧ allocates handler
  | CallAddHandler_create _ createFunction =>
      allocates (mkInstanceHandler createFunction default_delete)
  | _ => True
  end.

(** The fields of an instance other than its use count. *)
Definition identity_of (d : InstanceData T)
  : InstanceId * AssetId * AssetType * option ptr * T :=
  (m_id d, m_assetId d, m_assetType d, m_parentDatabase d, m_object d).

Definition loads (w : World T) : nat :=
  count_events is_get_asset (w_trace w).

End StoreVocabulary.

(** ** Evaluation of the operations *)

Ltac run_ops :=
  unfold release, fetch_sub, ReleaseInstance, erase_and_delete,
    FindOrCreate_asset, Create, FindOrCreate, FindOrCreate_shared, FindOrCreate_load,
    FindOrCreate_check, FindOrCreate_exclusive, Find, AddHandler_create,
    AddHandler, RemoveHandler, FindHandler, compare_exchange_strong,
    call_createFunction, call_deleteFunction, aznew, stamp, database_emplace,
    Instance_from_ptr, add_ref, ValidateSameAsset, set_handlers,
    set_database, AZ_Assert, AZ_Error, AZ_Warning, shared_lock, unique_lock,
    emit, get_db, put_db, get_heap, put_heap, exec, eval, bind, ret in *.

Ltac split_cases :=
  repeat (case_match; simpl in *; simplify_eq; try done).

Ltac norm_trace := rewrite <- ?app_assoc; simpl.

(** ** Counting events *)

Lemma count_events_nil f : count_events f [] = 0%nat.
Proof. done. Qed.

Lemma count_events_cons f e tr :
  count_events f (e :: tr)
  = ((if f e then 1 else 0) + count_events f tr)%nat.
Proof.
  unfold count_events. destruct (f e) eqn:He.
  - by rewrite filter_cons_True.
  - rewrite filter_cons_False; [done|]. by rewrite He.
Qed.

Lemma count_events_app f tr1 tr2 :
  count_events f (tr1 ++ tr2) = (count_events f tr1 + count_events f tr2)%nat.
Proof. unfold count_events. by rewrite filter_app, length_app. Qed.

Lemma load_events_count f asset :
  f (EvGetAsset (GetId asset) (GetType asset)) = false →
  count_events f (load_events asset) = 0%nat.
Proof.
  intros Hf. unfold load_events. destruct (IsReady asset); [done|].
  by rewrite count_events_cons, Hf.
Qed.

Ltac count_trace :=
  repeat first
    [ rewrite count_events_app
    | rewrite count_events_cons
    | rewrite count_events_nil
    | rewrite load_events_count by done ];
  simpl.
Section Blocks.

Context {T : Type}.
Variable debug : bool.
Variable am : AssetManager.
Implicit Types (w : World T) (id : InstanceId) (asset : Asset) (p : ptr).

Lemma shared_invalid id asset w :
  IsValid id = false →
  FindOrCreate_shared debug id asset w = (Return None, w).
Proof. intros H. unfold FindOrCreate_shared. by rewrite H. Qed.

Lemma shared_hit id asset w p :
  IsValid id = true → m_database (w_db w) !! id = Some p →
  FindOrCreate_shared debug id asset w
  = (Return (Some p),
     handed_out debug (EvSharedLock DatabaseMutex) w p asset).
Proof.
  intros Hv Hp. unfold handed_out, validate_events. run_ops.
  rewrite Hv. simpl. rewrite Hp.
  split_cases; norm_trace; by rewrite ?app_nil_r.
Qed.

Lemma shared_miss id asset w :
  IsValid id = true → m_database (w_db w) !! id = None →
  FindOrCreate_shared debug id asset w
  = (Continue tt, log w [EvSharedLock DatabaseMutex]).
Proof. intros Hv Hp. run_ops. rewrite Hv. simpl. by rewrite Hp. Qed.

Lemma load_result asset w :
  FindOrCreate_load am asset w
  = (if IsReady (loaded am asset) then Continue (loaded am asset)
     else Return None,
     log w (load_events asset)).
Proof.
  unfold FindOrCreate_load, loaded, load_events, log. run_ops.
  destruct (IsReady asset) eqn:Hr; simpl.
  - rewrite Hr. by destruct w; rewrite app_nil_r.
  - by destruct (IsReady (GetAsset am _ _)).
Qed.

Lemma check_subtype assetLocal w :
  azrtti_istypeof (m_baseAssetType (w_db w)) (Get assetLocal) = true →
  FindOrCreate_check debug assetLocal w = (Continue tt, w).
Proof. intros H. run_ops. by rewrite H. Qed.

Lemma check_foreign_handler assetLocal w handler :
  azrtti_istypeof (m_baseAssetType (w_db w)) (Get assetLocal) = false →
  m_handlers (w_db w) !! GetType assetLocal = Some handler →
  FindOrCreate_check debug assetLocal w
  = (Return None,
     log w (EvSharedLock HandlersMutex ::
            if debug then
              [EvAssert (HandlerNotSubclass (GetType assetLocal)
                           (m_baseAssetType (w_db w)))]
            else [])).
Proof.
  intros H Hh. unfold log. run_ops. rewrite H. simpl. rewrite Hh.
  destruct debug; simpl; by norm_trace.
Qed.

Lemma check_foreign_no_handler assetLocal w :
  azrtti_istypeof (m_baseAssetType (w_db w)) (Get assetLocal) = false →
  m_handlers (w_db w) !! GetType assetLocal = None →
  FindOrCreate_check debug assetLocal w
  = (Continue tt, log w [EvSharedLock HandlersMutex]).
Proof. intros H Hh. run_ops. rewrite H. simpl. by rewrite Hh. Qed.

Lemma exclusive_hit id asset assetLocal w p :
  m_database (w_db w) !! id = Some p →
  FindOrCreate_exclusive debug id asset assetLocal w
  = (Some p, handed_out debug (EvUniqueLock DatabaseMutex) w p asset).
Proof.
  intros Hp. unfold handed_out, validate_events. run_ops. simpl.
  rewrite Hp. split_cases; norm_trace; by rewrite ?app_nil_r.
Qed.

Lemma exclusive_no_handler id asset assetLocal w :
  m_database (w_db w) !! id = None →
  m_handlers (w_db w) !! GetType assetLocal = None →
  FindOrCreate_exclusive debug id asset assetLocal w
  = (None,
     log w (EvUniqueLock DatabaseMutex :: EvSharedLock HandlersMutex ::
            if debug then [EvWarning (NoHandlerFound (GetType assetLocal))]
            else [])).
Proof.
  intros Hp Hh. unfold log. run_ops. simpl. rewrite Hp. simpl. rewrite Hh.
  destruct debug; simpl; by norm_trace.
Qed.

Lemma exclusive_no_instance id asset assetLocal w handler data :
  m_database (w_db w) !! id = None →
  m_handlers (w_db w) !! GetType assetLocal = Some handler →
  Get assetLocal = Some data →
  m_createFunction handler data = None →
  FindOrCreate_exclusive debug id asset assetLocal w
  = (None,
     log w [EvUniqueLock DatabaseMutex; EvSharedLock HandlersMutex;
            EvCreateCall (GetType assetLocal)]).
Proof.
  intros Hp Hh Hd Hc. unfold log. run_ops. simpl. rewrite Hp. simpl. rewrite Hh. simpl. rewrite Hd, Hc.
  by norm_trace.
Qed.

Lemma exclusive_creates id asset assetLocal w handler data obj :
  m_database (w_db w) !! id = None →
  m_handlers (w_db w) !! GetType assetLocal = Some handler →
  Get assetLocal = Some data →
  m_createFunction handler data = Some (NewObject obj) →
  FindOrCreate_exclusive debug id asset assetLocal w
  = (Some (fresh (dom (w_heap w))),
     mkWorld
       (mkInstanceDatabase (m_handlers (w_db w))
          (<[id := fresh (dom (w_heap w))]> (m_database (w_db w)))
          (m_baseAssetType (w_db w)) (this_ptr (w_db w)))
       (<[fresh (dom (w_heap w)) := stamped w id assetLocal obj]> (w_heap w))
       (w_trace w ++ [EvUniqueLock DatabaseMutex; EvSharedLock HandlersMutex;
                      EvCreateCall (GetType assetLocal)])).
Proof.
  intros Hp Hh Hd Hc. unfold stamped. run_ops. unfold emplace. simpl.
  rewrite Hp. simpl. rewrite Hh. simpl. rewrite Hd, Hc. simpl.
  rewrite Hp. simpl. norm_trace. do 2 f_equal.
  by rewrite alter_insert_eq.
Qed.

Lemma exclusive_reuses id asset assetLocal w handler data p d :
  m_database (w_db w) !! id = None →
  m_handlers (w_db w) !! GetType assetLocal = Some handler →
  Get assetLocal = Some data →
  m_createFunction handler data = Some (LiveInstance p) →
  w_heap w !! p = Some d →
  FindOrCreate_exclusive debug id asset assetLocal w
  = (Some p,
     mkWorld
       (mkInstanceDatabase (m_handlers (w_db w))
          (<[id := p]> (m_database (w_db w)))
          (m_baseAssetType (w_db w)) (this_ptr (w_db w)))
       (<[p := restamped w id assetLocal d]> (w_heap w))
       (w_trace w ++ [EvUniqueLock DatabaseMutex; EvSharedLock HandlersMutex;
                      EvCreateCall (GetType assetLocal)])).
Proof.
  intros Hp Hh Hd Hc Hlive. unfold restamped. run_ops. unfold emplace. simpl.
  rewrite Hp. simpl. rewrite Hh. simpl. rewrite Hd, Hc. simpl.
  rewrite Hlive. simpl. rewrite Hp. simpl. norm_trace. do 2 f_equal.
  apply map_eq. intros q. destruct (decide (q = p)) as [->|Hq].
  - by rewrite lookup_insert_eq, !lookup_alter_eq, Hlive.
  - by rewrite lookup_insert_ne, !lookup_alter_ne.
Qed.

Lemma exclusive_no_live_instance id asset assetLocal w handler data p :
  m_database (w_db w) !! id = None →
  m_handlers (w_db w) !! GetType assetLocal = Some handler →
  Get assetLocal = Some data →
  m_createFunction handler data = Some (LiveInstance p) →
  w_heap w !! p = None →
  FindOrCreate_exclusive debug id asset assetLocal w
  = (None,
     log w [EvUniqueLock DatabaseMutex; EvSharedLock HandlersMutex;
            EvCreateCall (GetType assetLocal)]).
Proof.
  intros Hp Hh Hd Hc Hdead. unfold log. run_ops. simpl. rewrite Hp. simpl.
  rewrite Hh. simpl. rewrite Hd, Hc. simpl. rewrite Hdead. by norm_trace.
Qed.

End Blocks.

Section Sequential.

Context {T : Type}.
Variable debug : bool.
Variable am : AssetManager.
Implicit Types (w : World T) (id : InstanceId) (asset : Asset) (p : ptr).

Lemma FindOrCreate_invalid id asset w :
  IsValid id = false → FindOrCreate debug am id asset w = (None, w).
Proof.
  intros H. unfold FindOrCreate, bind. by rewrite shared_invalid.
Qed.

Lemma FindOrCreate_hit id asset w p :
  IsValid id = true → m_database (w_db w) !! id = Some p →
  FindOrCreate debug am id asset w
  = (Some p, handed_out debug (EvSharedLock DatabaseMutex) w p asset).
Proof.
  intros Hv Hp. unfold FindOrCreate, bind.
  by rewrite (shared_hit _ _ _ _ p).
Qed.

Lemma FindOrCreate_constructs id asset w handler obj :
  IsValid id = true → m_database (w_db w) !! id = None →
  constructible am w asset handler (NewObject obj) →
  FindOrCreate debug am id asset w
  = (Some (fresh (dom (w_heap w))), constructed am w id asset obj).
Proof.
  intros Hv Hp (data & Hd & Hty & Hh & Hc & _).
  unfold FindOrCreate, bind.
  rewrite shared_miss, load_result by done.
  assert (IsReady (loaded am asset) = true) as -> by (unfold IsReady; by rewrite Hd).
  rewrite check_subtype by (by rewrite Hd).
  rewrite (exclusive_creates _ _ _ _ _ handler data obj) by done.
  unfold constructed, entered, log. simpl. by norm_trace.
Qed.

Lemma FindOrCreate_reuses id asset w handler p d :
  IsValid id = true → m_database (w_db w) !! id = None →
  constructible am w asset handler (LiveInstance p) →
  w_heap w !! p = Some d →
  FindOrCreate debug am id asset w = (Some p, reused am w id asset p d).
Proof.
  intros Hv Hp (data & Hd & Hty & Hh & Hc & _) Hlive.
  unfold FindOrCreate, bind.
  rewrite shared_miss, load_result by done.
  assert (IsReady (loaded am asset) = true) as -> by (unfold IsReady; by rewrite Hd).
  rewrite check_subtype by (by rewrite Hd).
  rewrite (exclusive_reuses _ _ _ _ _ handler data p d) by done.
  unfold reused, entered, log. simpl. by norm_trace.
Qed.

End Sequential.

Section Outcomes.

Context {T : Type}.
Variable debug : bool.
Variable am : AssetManager.
Implicit Types (w : World T) (id : InstanceId) (asset : Asset) (p : ptr).

Lemma exec_then_ret {A} (m : M T A) w : exec (m ;;; ret tt) w = exec m w.
Proof. unfold exec, bind, ret. by destruct (m w). Qed.

Lemma log_nil w : log w [] = w.
Proof. destruct w. unfold log. simpl. by rewrite app_nil_r. Qed.

Lemma log_log w es1 es2 : log (log w es1) es2 = log w (es1 ++ es2).
Proof. unfold log. simpl. by rewrite app_assoc. Qed.

Lemma not_found_valid id asset w es :
  IsValid id = true → Outcome debug am id asset w (None, log w es).
Proof. intros Hv. constructor. congruence. Qed.

Lemma FindOrCreate_outcome id asset w :
  Outcome debug am id asset w (FindOrCreate debug am id asset w).
Proof.
  destruct (IsValid id) eqn:Hv.
  2: { rewrite FindOrCreate_invalid by done.
       pose proof (NotFound debug am id asset w [] (λ _, eq_refl)) as H.
       by rewrite log_nil in H. }
  destruct (m_database (w_db w) !! id) as [p|] eqn:Hp.
  { rewrite (FindOrCreate_hit _ _ _ _ _ p) by done. by constructor. }
  destruct (Get (loaded am asset)) as [data|] eqn:Hd; cycle 1.
  { unfold FindOrCreate, bind. rewrite shared_miss, load_result by done.
    unfold IsReady. rewrite Hd. simpl.
    rewrite ?log_log. by apply not_found_valid. }
  assert (IsReady (loaded am asset) = true) as Hr
    by (unfold IsReady; by rewrite Hd).
  destruct (azrtti_istypeof (m_baseAssetType (w_db w)) (Some data)) eqn:Hty;
    destruct (m_handlers (w_db w) !! GetType (loaded am asset))
      as [h|] eqn:Hh.
  - destruct (m_createFunction h data) as [[obj|q]|] eqn:Hc.
    + rewrite (FindOrCreate_constructs _ _ _ _ _ h obj); [|done..|].
      * by apply (Constructed _ _ _ _ _ h obj); [..|exists data].
      * by exists data.
    + destruct (w_heap w !! q) as [d|] eqn:Hq.
      * assert (constructible am w asset h (LiveInstance q)) as Hcons
          by (exists data; by rewrite Hq).
        rewrite (FindOrCreate_reuses _ _ _ _ _ h q d) by done.
        by apply (Reused _ _ _ _ _ h q d).
      * unfold FindOrCreate, bind.
        rewrite shared_miss, load_result, Hr by done.
        rewrite check_subtype by (by rewrite Hd).
        rewrite (exclusive_no_live_instance _ _ _ _ _ h data q) by done.
        rewrite ?log_log. by apply not_found_valid.
    + unfold FindOrCreate, bind.
      rewrite shared_miss, load_result, Hr by done.
      rewrite check_subtype by (by rewrite Hd).
      rewrite (exclusive_no_instance _ _ _ _ _ h data) by done.
      rewrite ?log_log. by apply not_found_valid.
  - unfold FindOrCreate, bind. rewrite shared_miss, load_result, Hr by done.
    rewrite check_subtype by (by rewrite Hd).
    rewrite exclusive_no_handler by done.
    rewrite ?log_log. by apply not_found_valid.
  - unfold FindOrCreate, bind. rewrite shared_miss, load_result, Hr by done.
    rewrite (check_foreign_handler _ _ _ h) by (by rewrite ?Hd).
    rewrite ?log_log. by apply not_found_valid.
  - unfold FindOrCreate, bind. rewrite shared_miss, load_result, Hr by done.
    rewrite check_foreign_no_handler by (by rewrite ?Hd).
    rewrite exclusive_no_handler by done.
    rewrite ?log_log. by apply not_found_valid.
Qed.

Lemma FindOrCreate_keys_valid id asset w :
  keys_valid w → keys_valid (exec (FindOrCreate debug am id asset) w).
Proof.
  intros Hw. unfold exec.
  destruct (FindOrCreate_outcome id asset w)
    as [es _|p Hv Hp|h obj Hv Hp _|h p d Hv Hp _ _];
    simpl; [done..| |].
  all: intros k q; unfold constructed, reused, entered; simpl;
    rewrite lookup_insert; case_decide; naive_solver.
Qed.

Lemma ReleaseInstance_keys_valid instance id w :
  keys_valid w → keys_valid (exec (ReleaseInstance debug instance id) w).
Proof.
  unfold keys_valid. intros Hw. run_ops. simpl. split_cases.
  all: simpl; intros k q; rewrite ?lookup_delete_Some;
    first [by apply Hw | intros [_ ?]; by eapply Hw].
Qed.

Lemma perform_keys_valid (c : Call T) w :
  keys_valid w → keys_valid (exec (perform debug am c) w).
Proof.
  intros Hw. destruct c; simpl.
  1-4: by (run_ops; simpl; split_cases).
  1-3: rewrite exec_then_ret; by apply FindOrCreate_keys_valid.
  - by run_ops.
  - unfold release, fetch_sub, exec, bind, get_heap, put_heap, ret. simpl.
    destruct (w_heap w !! p) as [d|]; [|done]. simpl.
    destruct (m_useCount d =? 1); [|done].
    by apply ReleaseInstance_keys_valid.
Qed.

Lemma reachable_invariant w : reachable debug am w → keys_valid w.
Proof.
  induction 1 as [assetType this|w c _ IH].
  - intros id p. unfold InstanceDatabase_new. simpl.
    by rewrite lookup_empty.
  - by apply perform_keys_valid.
Qed.

Lemma validate_events_count f w p asset :
  f (EvError DifferentAssetUsed) = false →
  count_events f (validate_events debug w p asset) = 0%nat.
Proof.
  intros Hf. unfold validate_events.
  destruct debug; [|done]. destruct (w_heap w !! p); [|done].
  case_bool_decide; [done|]. by rewrite count_events_cons, Hf.
Qed.

Lemma handed_out_creations lock w p asset :
  is_create_call lock = false →
  creations (handed_out debug lock w p asset) = creations w.
Proof.
  intros Hl. unfold creations, handed_out. simpl. count_trace.
  rewrite Hl, validate_events_count by done. lia.
Qed.



Lemma FindOrCreate_then_present id asset w p w1 :
  FindOrCreate debug am id asset w = (Some p, w1) →
  IsValid id = true ∧ m_database (w_db w1) !! id = Some p.
Proof.
  intros Hrun.
  destruct (FindOrCreate_outcome id asset w)
    as [es _|q Hv Hq|h obj Hv _ Hc|h q d Hv _ Hc _]; simplify_eq;
    (split; [done|]).
  - done.
  - unfold constructed, entered. simpl. by rewrite lookup_insert_eq.
  - unfold reused, entered. simpl. by rewrite lookup_insert_eq.
Qed.

Lemma constructible_new_same_db w w1 asset handler obj :
  m_handlers (w_db w1) = m_handlers (w_db w) →
  m_baseAssetType (w_db w1) = m_baseAssetType (w_db w) →
  constructible am w asset handler (NewObject obj) →
  constructible am w1 asset handler (NewObject obj).
Proof.
  unfold constructible. intros -> -> (data & ? & ? & ? & ? & _).
  by exists data.
Qed.

End Outcomes.

(** ** Properties of the sequential operations *)

Section SequentialProperties.

Context {T : Type}.
Variable debug : bool.
Variable am : AssetManager.
Implicit Types (w : World T) (id : InstanceId) (asset : Asset) (p : ptr).

Lemma AddHandler_fresh w (t : AssetType) (h : InstanceHandler T) :
  m_handlers (w_db w) !! t = None →
  AddHandler debug t h w
  = (tt, mkWorld
           (mkInstanceDatabase (<[t := h]> (m_handlers (w_db w)))
              (m_database (w_db w)) (m_baseAssetType (w_db w))
              (this_ptr (w_db w)))
           (w_heap w) (w_trace w ++ [EvUniqueLock HandlersMutex])).
Proof.
  intros Ht. run_ops. unfold emplace. simpl. rewrite Ht. simpl.
  by rewrite andb_false_r.
Qed.

Lemma AddHandler_taken w (t : AssetType) (h h0 : InstanceHandler T) :
  m_handlers (w_db w) !! t = Some h0 →
  AddHandler debug t h w
  = (tt, log w (EvUniqueLock HandlersMutex ::
                if debug then [EvAssert HandlerAlreadyExists] else [])).
Proof.
  intros Ht. run_ops. unfold emplace, log. simpl. rewrite Ht. simpl.
  destruct w as [[hs tbl base this] heap tr]; simpl.
  destruct debug; simpl; by norm_trace.
Qed.

(** C3.  Whenever [FindOrCreate(id, asset)] returns no instance, for
    whichever reason (invalid id, failed load, handler bound outside the
    base type, no handler, create function yielding nothing), the
    database object, hence its instance table, and the heap of instances
    are exactly what they were; only events were recorded. *)
Theorem FindOrCreate_not_found_leaves_table id asset w :
  eval (FindOrCreate debug am id asset) w = None →
  w_db (exec (FindOrCreate debug am id asset) w) = w_db w ∧
  m_database (w_db (exec (FindOrCreate debug am id asset) w))
    = m_database (w_db w) ∧
  w_heap (exec (FindOrCreate debug am id asset) w) = w_heap w.
Proof.
  unfold eval, exec.
  by destruct (FindOrCreate_outcome debug am id asset w).
Qed.

(** C4.  When [FindOrCreate(id, asset)] constructs (the id was absent and
    an instance is returned), the returned instance carries [m_id = id],
    the id and type of the loaded asset, and the address of this
    database; the table maps [id] to it, a following [Find(id)] returns
    it, and the create function was called once. *)
Theorem FindOrCreate_construction_stamps id asset w p w' :
  m_database (w_db w) !! id = None →
  FindOrCreate debug am id asset w = (Some p, w') →
  (∃ d, w_heap w' !! p = Some d ∧
        m_id d = id ∧
        m_assetId d = GetId (loaded am asset) ∧
        m_assetType d = GetType (loaded am asset) ∧
        m_parentDatabase d = Some (this_ptr (w_db w'))) ∧
  m_database (w_db w') !! id = Some p ∧
  eval (Find id) w' = Some p ∧
  creations w' = S (creations w).
Proof.
  intros Hp Hrun.
  destruct (FindOrCreate_outcome debug am id asset w)
    as [es _|q Hv Hq|h obj Hv _ Hc|h q d Hv _ Hc _]; simplify_eq.
  all: unfold constructed, reused, entered; simpl; split; [|split; [|split]].
  all: try (eexists; by rewrite lookup_insert_eq).
  all: try by rewrite lookup_insert_eq.
  all: try (run_ops; simpl; by rewrite lookup_insert_eq).
  all: unfold creations; simpl; count_trace; lia.
Qed.

(** C5.  In every state reached from construction through the public
    operations all keys of the instance table are valid ids; [Find] with
    an invalid id (the default id is one) returns nothing, and
    [FindOrCreate] with an invalid id returns nothing and leaves the
    world as it is: no lock event, no change of state. *)
Theorem reachable_keys_valid w :
  reachable debug am w →
  keys_valid w ∧
  IsValid InstanceId_default = false ∧
  (∀ id, IsValid id = false →
     Find id w = (None, log w [EvSharedLock DatabaseMutex])) ∧
  (∀ id asset, IsValid id = false →
     FindOrCreate debug am id asset w = (None, w)).
Proof.
  intros Hw%reachable_invariant. split; [done|]. split; [done|]. split.
  - intros id Hid. run_ops. unfold log. simpl.
    destruct (m_database (w_db w) !! id) as [p|] eqn:Hp; [|done].
    apply Hw in Hp. congruence.
  - intros id asset Hid. by apply FindOrCreate_invalid.
Qed.

(** C6.  After a miss and a successful load, an asset whose payload does
    not derive from the base asset type never gets an entry: with a
    handler registered for its type the call stops at the assertion
    (recorded in debug builds) without taking the exclusive lock, and
    without one it ends in the missing-handler branch; either way
    nothing is returned and the database and the heap are unchanged. *)
Theorem FindOrCreate_rejects_foreign_type id asset w :
  IsValid id = true →
  m_database (w_db w) !! id = None →
  IsReady (loaded am asset) = true →
  azrtti_istypeof (m_baseAssetType (w_db w)) (Get (loaded am asset)) = false →
  FindOrCreate debug am id asset w
  = (None,
     log w
       (EvSharedLock DatabaseMutex :: load_events asset ++
        match m_handlers (w_db w) !! GetType (loaded am asset) with
        | Some _ =>
            EvSharedLock HandlersMutex ::
            (if debug then
               [EvAssert (HandlerNotSubclass (GetType (loaded am asset))
                            (m_baseAssetType (w_db w)))]
             else [])
        | None =>
            [EvSharedLock HandlersMutex; EvUniqueLock DatabaseMutex;
             EvSharedLock HandlersMutex] ++
            (if debug then
               [EvWarning (NoHandlerFound (GetType (loaded am asset)))]
             else [])
        end)).
Proof.
  intros Hv Hp Hr Hty. unfold FindOrCreate, bind.
  rewrite shared_miss, load_result, Hr by done.
  destruct (m_handlers (w_db w) !! GetType (loaded am asset)) as [h|] eqn:Hh.
  - rewrite (check_foreign_handler _ _ _ h) by done.
    rewrite !log_log. simpl. by rewrite <- ?app_assoc.
  - rewrite check_foreign_no_handler by done.
    rewrite exclusive_no_handler by done.
    rewrite !log_log. simpl. by rewrite <- ?app_assoc.
Qed.

(** C7.  [AddHandler] for an asset type that already has a handler
    leaves the registry as it is (the conflict is asserted in debug
    builds), so the handler found for the type is still the original
    one; in particular after [AddHandler(t, p)] on a type without handler
    followed by [AddHandler(t, p2)], [FindHandler(t)] yields [p]. *)
Theorem AddHandler_twice_keeps_first w (t : AssetType)
    (p p2 : InstanceHandler T) :
  (m_handlers (w_db w) !! t = Some p →
     AddHandler debug t p2 w
     = (tt, log w (EvUniqueLock HandlersMutex ::
                   if debug then [EvAssert HandlerAlreadyExists] else [])) ∧
     eval (FindHandler t) (exec (AddHandler debug t p2) w) = Some p) ∧
  (m_handlers (w_db w) !! t = None →
     eval (FindHandler t) (exec (AddHandler debug t p) w) = Some p ∧
     eval (FindHandler t)
       (exec (AddHandler debug t p2) (exec (AddHandler debug t p) w))
     = Some p).
Proof.
  assert (∀ w', eval (FindHandler t) w' = m_handlers (w_db w') !! t) as Hf.
  { intros w'. run_ops. simpl. by destruct (_ !! t). }
  split; intros Ht.
  - rewrite Hf. unfold exec. rewrite (AddHandler_taken w t p2 p) by done.
    by split.
  - rewrite !Hf. unfold exec. rewrite AddHandler_fresh by done. simpl.
    rewrite (AddHandler_taken _ t p2 p); simpl; by rewrite lookup_insert_eq.
Qed.

(** C10.  On a cache hit (the id is in the table of a reachable state),
    [FindOrCreate] returns the stored instance for every asset argument,
    loaded or not and of whatever type: the database is unchanged, the
    only lock taken is the shared lock of the table, nothing is loaded,
    the handler registry is not consulted and no create function runs;
    in a production build the shared lock is the only event at all. *)
Theorem FindOrCreate_cache_hit w id p asset :
  reachable debug am w →
  m_database (w_db w) !! id = Some p →
  let w' := exec (FindOrCreate debug am id asset) w in
  eval (FindOrCreate debug am id asset) w = Some p ∧
  w_db w' = w_db w ∧
  w_trace w'
    = w_trace w ++ EvSharedLock DatabaseMutex ::
        validate_events debug w p asset ∧
  count_events is_get_asset (w_trace w')
    = count_events is_get_asset (w_trace w) ∧
  count_events is_handlers_lock (w_trace w')
    = count_events is_handlers_lock (w_trace w) ∧
  creations w' = creations w ∧
  (debug = false → w_trace w' = w_trace w ++ [EvSharedLock DatabaseMutex]).
Proof.
  intros Hw%reachable_invariant Hp. unfold eval, exec, creations.
  rewrite (FindOrCreate_hit _ _ _ _ _ p) by eauto. simpl.
  repeat split; try done.
  1-3: count_trace; rewrite validate_events_count by done; lia.
  intros ->. done.
Qed.

(** C9.  The key of the keyless overload is a function of the asset id
    alone, so a second keyless [FindOrCreate] with an asset of the same
    id addresses the same slot: it returns the instance the first call
    returned, leaves the database as it is and calls no create
    function. *)
Theorem FindOrCreate_asset_same_slot w asset asset' p w1 :
  GetId asset' = GetId asset →
  FindOrCreate_asset debug am asset w = (Some p, w1) →
  CreateFromAssetId (GetId asset') = CreateFromAssetId (GetId asset) ∧
  eval (FindOrCreate_asset debug am asset') w1 = Some p ∧
  w_db (exec (FindOrCreate_asset debug am asset') w1) = w_db w1 ∧
  creations (exec (FindOrCreate_asset debug am asset') w1) = creations w1.
Proof.
  unfold FindOrCreate_asset, eval, exec. intros -> Hrun. split; [done|].
  apply FindOrCreate_then_present in Hrun as [Hv Hp].
  rewrite (FindOrCreate_hit _ _ _ _ _ p) by done. simpl.
  by rewrite handed_out_creations.
Qed.



End SequentialProperties.

Section ReleaseProtocol.

Context {T : Type}.
Variable debug : bool.
Implicit Types (w : World T) (key : InstanceId) (instance : ptr).

Lemma ReleaseInstance_absent instance key w :
  m_database (w_db w) !! key ≠ Some instance →
  ReleaseInstance debug instance key w
  = (tt, log w [EvUniqueLock DatabaseMutex]).
Proof.
  intros Hk. run_ops. simpl.
  destruct (m_database (w_db w) !! key) as [q|]; [|done].
  case_bool_decide; [congruence|done].
Qed.

Lemma ReleaseInstance_in_use instance key w :
  use_count w instance ≠ Some 0 →
  ReleaseInstance debug instance key w
  = (tt, log w [EvUniqueLock DatabaseMutex]).
Proof.
  unfold use_count. intros Hc. run_ops. simpl.
  destruct (m_database (w_db w) !! key) as [q|]; [|done].
  case_bool_decide; [|done]. simpl.
  destruct (w_heap w !! instance) as [d|]; [|done]. simpl in *.
  destruct (Z.eqb_spec (m_useCount d) 0); [congruence|done].
Qed.

Lemma ReleaseInstance_retires instance key w d :
  m_database (w_db w) !! key = Some instance →
  w_heap w !! instance = Some d →
  m_useCount d = 0 →
  ReleaseInstance debug instance key w
  = match m_handlers (w_db w) !! m_assetType d with
    | Some handler =>
        (tt, mkWorld
               (mkInstanceDatabase (m_handlers (w_db w))
                  (delete (m_id d) (m_database (w_db w)))
                  (m_baseAssetType (w_db w)) (this_ptr (w_db w)))
               (m_deleteFunction handler instance
                  (<[instance := set_useCount d (-1)]> (w_heap w)))
               (w_trace w ++ [EvUniqueLock DatabaseMutex;
                              EvSharedLock HandlersMutex;
                              EvDeleteCall instance]))
    | None =>
        (tt, mkWorld
               (mkInstanceDatabase (m_handlers (w_db w))
                  (delete (m_id d) (m_database (w_db w)))
                  (m_baseAssetType (w_db w)) (this_ptr (w_db w)))
               (<[instance := set_useCount d (-1)]> (w_heap w))
               (w_trace w ++ EvUniqueLock DatabaseMutex ::
                  EvSharedLock HandlersMutex ::
                  if debug
                  then [EvAssert (CannotDeleteInstance (m_assetType d))]
                  else []))
    end.
Proof.
  intros Hk Hd Hc. run_ops. simpl. rewrite Hk. simpl.
  rewrite bool_decide_eq_true_2 by done. simpl.
  rewrite Hd. simpl. rewrite Hc. simpl.
  rewrite lookup_insert_eq. simpl.
  destruct (m_handlers (w_db w) !! m_assetType d) as [h|]; simpl.
  - by norm_trace.
  - destruct debug; simpl; by norm_trace.
Qed.

(** C2, as amended.  For an instance whose [m_id] is the key it is
    stored under: [ReleaseInstance(instance, key)] removes the entry if
    and only if the table maps [key] to exactly [instance] and the use
    count is exchanged from 0 to -1.  In that case the delete function is
    called once when a handler is registered for the asset type of the
    instance; when none is registered the entry is removed all the same,
    the count stays at -1 and no delete function runs.  In every other
    case only the lock is taken: table, registry and instances are
    unchanged.  A repeated call is always of the second kind, so the
    delete function never runs twice. *)
Theorem ReleaseInstance_protocol w instance key :
  (∀ d, m_database (w_db w) !! key = Some instance →
        w_heap w !! instance = Some d → m_id d = key) →
  let w' := exec (ReleaseInstance debug instance key) w in
  (m_database (w_db w) !! key = Some instance ∧
   use_count w instance = Some 0 →
     m_database (w_db w') = delete key (m_database (w_db w)) ∧
     m_handlers (w_db w') = m_handlers (w_db w) ∧
     ∃ d, w_heap w !! instance = Some d ∧
       match m_handlers (w_db w) !! m_assetType d with
       | Some handler =>
           deletions instance w' = S (deletions instance w) ∧
           w_heap w' = m_deleteFunction handler instance
                         (<[instance := set_useCount d (-1)]> (w_heap w))
       | None =>
           deletions instance w' = deletions instance w ∧
           w_heap w' = <[instance := set_useCount d (-1)]> (w_heap w)
       end) ∧
  (¬ (m_database (w_db w) !! key = Some instance ∧
      use_count w instance = Some 0) →
     w' = log w [EvUniqueLock DatabaseMutex]) ∧
  exec (ReleaseInstance debug instance key) w'
    = log w' [EvUniqueLock DatabaseMutex].
Proof.
  intros Hid w'. subst w'. unfold exec.
  destruct (decide (m_database (w_db w) !! key = Some instance)) as [Hk|Hk];
    cycle 1.
  { rewrite ReleaseInstance_absent by done.
    split; [by intros [? ?]|]. split; [done|].
    by rewrite ReleaseInstance_absent. }
  destruct (decide (use_count w instance = Some 0)) as [Hc|Hc]; cycle 1.
  { rewrite ReleaseInstance_in_use by done.
    split; [by intros [? ?]|]. split; [done|].
    by rewrite ReleaseInstance_in_use. }
  pose proof Hc as Hc'. unfold use_count in Hc'.
  apply fmap_Some in Hc' as (d & Hd & Hz).
  rewrite (ReleaseInstance_retires _ _ _ d) by done.
  specialize (Hid d Hk Hd).
  split; [|split].
  2: { by intros []. }
  - intros _. unfold deletions.
    destruct (m_handlers (w_db w) !! m_assetType d) as [h|] eqn:Hh; simpl;
      rewrite Hid; (split; [done|]); (split; [done|]); exists d;
      (split; [done|]); rewrite Hh; (split; [|done]); count_trace.
    + rewrite bool_decide_eq_true_2 by done. lia.
    + destruct debug; count_trace; lia.
  - destruct (m_handlers (w_db w) !! m_assetType d) as [h|]; simpl;
      rewrite ReleaseInstance_absent; try done; simpl;
      rewrite Hid, lookup_delete_eq; done.
Qed.

End ReleaseProtocol.

(** ** Threads racing in [FindOrCreate] *)

Section Progress.

Context {T : Type}.
Variable debug : bool.
Variable am : AssetManager.
Implicit Types (w : World T) (c : Config T) (t : Thread).
Local Open Scope nat_scope.

Lemma thread_step_remaining t w :
  remaining (th_pc (thread_step debug am t w).1)
  ≤ pred (remaining (th_pc t)).
Proof.
  unfold thread_step, bind, ret.
  destruct t as [tid tasset [| |al|al|r]]; simpl.
  - destruct (FindOrCreate_shared _ _ _ _) as [[r|[]] w']; simpl; lia.
  - destruct (FindOrCreate_load _ _ _) as [[r|al] w']; simpl; lia.
  - destruct (FindOrCreate_check _ _ _) as [[r|[]] w']; simpl; lia.
  - destruct (FindOrCreate_exclusive _ _ _ _ _) as [r w']; simpl; lia.
  - lia.
Qed.

Lemma schedule_length c i :
  length (schedule debug am c i).1 = length c.1.
Proof.
  unfold schedule. destruct (c.1 !! i) as [t|]; [|done].
  destruct (thread_step debug am t c.2). simpl. by rewrite length_insert.
Qed.

Lemma schedule_remaining c i j :
  remaining_at (schedule debug am c i) j
  ≤ (if decide (i = j) then pred (remaining_at c j) else remaining_at c j).
Proof.
  unfold remaining_at, schedule.
  destruct (c.1 !! i) as [t|] eqn:Hi.
  - pose proof (thread_step_remaining t c.2) as Hstep.
    destruct (thread_step debug am t c.2) as [t' w']. simpl in *.
    case_decide as Hij.
    + subst j. rewrite Hi.
      rewrite list_lookup_insert_eq by (by eapply lookup_lt_Some). done.
    + by rewrite list_lookup_insert_ne.
  - case_decide; [subst j; by rewrite Hi|done].
Qed.

Lemma run_length sched c :
  length (run debug am sched c).1 = length c.1.
Proof.
  revert c. induction sched as [|i sched IH]; intros c; [done|].
  simpl. by rewrite IH, schedule_length.
Qed.

Lemma run_remaining sched c j :
  remaining_at (run debug am sched c) j
  ≤ remaining_at c j - turns j sched.
Proof.
  revert c. induction sched as [|i sched IH]; intros c; simpl.
  - unfold turns. simpl. lia.
  - etrans; [apply IH|].
    pose proof (schedule_remaining c i j) as Hs.
    unfold turns in *.
    destruct (decide (i = j)) as [->|Hij].
    + rewrite filter_cons_True by done. simpl. lia.
    + rewrite filter_cons_False by done. lia.
Qed.

(** A thread that runs alone runs [FindOrCreate]. *)
Lemma run_alone id asset w :
  run debug am [0; 0; 0; 0] ([spawn id asset], w)
  = ([mkThread id asset (Finished (eval (FindOrCreate debug am id asset) w))],
     exec (FindOrCreate debug am id asset) w).
Proof.
  unfold run, schedule, thread_step, spawn, at_pc, FindOrCreate, eval, exec,
    bind, ret.
  simpl.
  destruct (FindOrCreate_shared debug id asset w) as [[r|[]] w1]; [done|].
  simpl.
  destruct (FindOrCreate_load am asset w1) as [[r|al] w2]; [done|]. simpl.
  destruct (FindOrCreate_check debug al w2) as [[r|[]] w3]; [done|]. simpl.
  by destruct (FindOrCreate_exclusive debug id asset al w3).
Qed.

(** Under any schedule a thread has returned once it had four turns. *)
Lemma run_finishes sched c :
  (∀ i, i < length c.1 → 4 ≤ turns i sched) →
  Forall (λ t, finished t = true) (run debug am sched c).1.
Proof.
  intros Hturns. apply Forall_lookup. intros i t Hi.
  pose proof (run_remaining sched c i) as Hr.
  assert (i < length c.1) as Hlen.
  { rewrite <- (run_length sched c). by eapply lookup_lt_Some. }
  specialize (Hturns i Hlen).
  assert (remaining_at c i ≤ 4) as Hle.
  { unfold remaining_at. destruct (c.1 !! i) as [t0|]; [|lia].
    destruct (th_pc t0); simpl; lia. }
  unfold remaining_at in Hr at 1. rewrite Hi in Hr.
  unfold finished. destruct (th_pc t); simpl in *; try done; lia.
Qed.

End Progress.

Section Race.

Context {T : Type}.
Variable debug : bool.
Variable am : AssetManager.
Variable w0 : World T.
Variable id : InstanceId.
Variable asset : Asset.
Variable handler : InstanceHandler T.
Variable res : Created T.
Hypothesis Hvalid : IsValid id = true.
Hypothesis Hcons : constructible am w0 asset handler res.
Implicit Types (w : World T) (c : Config T) (t : Thread).
Local Open Scope nat_scope.

Lemma thread_ok_mono winner winner' t :
  winner' = winner ∨ (winner = None ∧ is_Some winner') →
  thread_ok am id asset winner t → thread_ok am id asset winner' t.
Proof.
  intros [->|[-> Hw]]; [done|].
  intros (? & ? & Hpc). repeat split; try done.
  destruct (th_pc t); simpl in *; try done.
  destruct Hpc as [[? [=]] _].
Qed.

Lemma race_world_log winner w es :
  count_events is_create_call es = 0 →
  race_world w0 id winner w → race_world w0 id winner (log w es).
Proof.
  intros Hes (? & ? & Hc & ? & ? & ?). split_and!; try done.
  unfold creations, log in *. simpl. rewrite count_events_app. lia.
Qed.

Lemma race_world_handed_out winner w lock p asset' :
  is_create_call lock = false →
  race_world w0 id winner w →
  race_world w0 id winner (handed_out debug lock w p asset').
Proof.
  intros Hl (? & ? & Hc & ? & ? & Hlive). split_and!; try done.
  - by rewrite handed_out_creations.
  - intros q Hq. unfold handed_out. simpl. rewrite lookup_alter.
    apply Hlive in Hq as [d Hd]. case_decide; subst; rewrite Hd; by eexists.
Qed.

(** One block of one thread keeps the invariant; the entry of [id] is
    only ever set, by the thread that finds it absent under the exclusive
    lock. *)
Lemma thread_step_ok winner t w :
  race_world w0 id winner w →
  thread_ok am id asset winner t →
  ∃ winner',
    (winner' = winner ∨ (winner = None ∧ is_Some winner')) ∧
    race_world w0 id winner' (thread_step debug am t w).2 ∧
    thread_ok am id asset winner' (thread_step debug am t w).1.
Proof.
  intros Hw (Hid & Has & Hpc).
  destruct Hcons as (data & Hd & Hty & Hh & Hc & Hr).
  destruct t as [tid tasset pc]. simpl in *. subst tid tasset.
  pose proof Hw as (Htbl & Hkeep & Hcr & Hhs & Hbase & Hlive).
  unfold thread_step, bind, ret. simpl.
  destruct pc as [| |al|al|r]; simpl in *.
  - destruct winner as [p|].
    + rewrite (shared_hit _ _ _ _ p) by done. simpl.
      exists (Some p). split; [by left|]. split.
      * by apply race_world_handed_out.
      * by repeat split.
    + rewrite shared_miss by done. simpl.
      exists None. split; [by left|]. split.
      * by apply race_world_log.
      * by repeat split.
  - rewrite load_result. unfold IsReady. rewrite Hd. simpl.
    exists winner. split; [by left|]. split.
    + apply race_world_log; [|done]. by apply load_events_count.
    + by repeat split.
  - subst al. rewrite check_subtype by (by rewrite Hbase, Hd). simpl.
    exists winner. split; [by left|]. by repeat split.
  - subst al. destruct winner as [p|].
    + rewrite (exclusive_hit _ _ _ _ _ p) by done. simpl.
      exists (Some p). split; [by left|]. split.
      * by apply race_world_handed_out.
      * by repeat split.
    + assert (m_database (w_db w0) !! id = None) as Hinit.
      { destruct (m_database (w_db w0) !! id) eqn:Hi; [|done].
        by destruct Hkeep. }
      assert (∀ p d,
        race_world w0 id (Some p)
          (mkWorld
             (mkInstanceDatabase (m_handlers (w_db w))
                (<[id := p]> (m_database (w_db w)))
                (m_baseAssetType (w_db w)) (this_ptr (w_db w)))
             (<[p := d]> (w_heap w))
             (w_trace w ++ [EvUniqueLock DatabaseMutex;
                            EvSharedLock HandlersMutex;
                            EvCreateCall (GetType (loaded am asset))])))
        as Hentered.
      { intros p d. split_and!; simpl; try done.
        - by rewrite lookup_insert_eq.
        - rewrite Hinit. by intros [? [=]].
        - unfold creations, constructions_due in *. rewrite Hinit in *.
          simpl. count_trace. lia.
        - intros q Hq. destruct (decide (q = p)) as [->|Hne].
          + rewrite lookup_insert_eq. by eexists.
          + rewrite lookup_insert_ne by done. by apply Hlive. }
      destruct res as [obj|p].
      * rewrite (exclusive_creates _ _ _ _ _ handler data obj) by
          (by rewrite ?Hhs).
        simpl. eexists (Some _). split; [right; by split|].
        split; [apply Hentered|by repeat split].
      * destruct (Hlive p Hr) as [d Hp].
        rewrite (exclusive_reuses _ _ _ _ _ handler data p d) by
          (by rewrite ?Hhs).
        simpl. eexists (Some _). split; [right; by split|].
        split; [apply Hentered|by repeat split].
  - exists winner. split; [by left|]. destruct Hpc. by repeat split.
Qed.

Lemma schedule_inv c i :
  race_inv am w0 id asset c → race_inv am w0 id asset (schedule debug am c i).
Proof.
  intros (winner & Hw & Hts). unfold schedule.
  destruct (c.1 !! i) as [t|] eqn:Hi; [|by exists winner].
  pose proof (Forall_lookup_1 _ _ _ _ Hts Hi) as Ht.
  destruct (thread_step_ok winner t c.2 Hw Ht) as (winner' & Hmono & Hw' & Ht').
  destruct (thread_step debug am t c.2) as [t' w']. simpl in *.
  exists winner'. split; [done|].
  apply Forall_insert; [|done].
  eapply Forall_impl; [exact Hts|]. intros t0. by apply thread_ok_mono.
Qed.

Lemma run_inv sched c :
  race_inv am w0 id asset c → race_inv am w0 id asset (run debug am sched c).
Proof.
  revert c. induction sched as [|i sched IH]; intros c Hc; [done|].
  simpl. by apply IH, schedule_inv.
Qed.

Lemma spawn_inv (N : nat) :
  race_inv am w0 id asset (replicate N (spawn id asset), w0).
Proof.
  exists (m_database (w_db w0) !! id). split.
  - split_and!; try done. simpl. unfold constructions_due.
    destruct (m_database (w_db w0) !! id); lia.
  - simpl. apply Forall_replicate. by repeat split.
Qed.

End Race.

Section RaceTheorem.

Context {T : Type}.
Variable debug : bool.
Variable am : AssetManager.
Local Open Scope nat_scope.

(** C1.  [N] threads call [FindOrCreate(id, asset)] with a valid [id] and
    an asset from which the registered handler constructs, be it a new
    object or an instance that is already alive.  Whatever the
    schedule, the create function runs at most once and a thread that has
    returned holds the instance stored under [id].  Once all have
    returned, all [N] threads hold the same instance, the one the table
    maps [id] to, and the create function has run exactly once for the
    key: once in this race if the key was absent at its start, and not
    again if the key was already there.  Every schedule that gives each
    thread four turns lets all of them return. *)
Theorem FindOrCreate_race_single_construction (w0 : World T)
    (id : InstanceId) (asset : Asset) (handler : InstanceHandler T)
    (res : Created T) (N : nat) (sched : list nat) :
  IsValid id = true →
  constructible am w0 asset handler res →
  0 < N →
  let c := run debug am sched (replicate N (spawn id asset), w0) in
  creations c.2 ≤ S (creations w0) ∧
  (∀ i t r, c.1 !! i = Some t → th_pc t = Finished r →
     is_Some r ∧ r = m_database (w_db c.2) !! id) ∧
  (Forall (λ t, finished t = true) c.1 →
     creations c.2
       = creations w0
         + (if m_database (w_db w0) !! id is Some _ then 0 else 1) ∧
     ∃ p, m_database (w_db c.2) !! id = Some p ∧
          length c.1 = N ∧
          Forall (λ t, th_pc t = Finished (Some p)) c.1) ∧
  ((∀ i, i < N → 4 ≤ turns i sched) →
     Forall (λ t, finished t = true) c.1).
Proof.
  intros Hv Hcons HN c.
  pose proof (run_inv debug am w0 id asset handler res Hv Hcons sched _
                (spawn_inv am w0 id asset N)) as (winner & Hw & Hts).
  fold c in Hw, Hts. destruct Hw as (Htbl & _ & Hcr & _ & _ & _).
  assert (length c.1 = N) as Hlen.
  { unfold c. rewrite run_length. simpl. by rewrite length_replicate. }
  unfold constructions_due in Hcr.
  split; [|split; [|split]].
  - rewrite Hcr. destruct (m_database (w_db w0) !! id), winner; lia.
  - intros i t r Hi Hr.
    pose proof (Forall_lookup_1 _ _ _ _ Hts Hi) as (_ & _ & Hpc).
    rewrite Hr in Hpc. simpl in Hpc. destruct Hpc as [? ->]. by rewrite Htbl.
  - intros Hfin.
    destruct (c.1) as [|t ts] eqn:Hc1; [simpl in Hlen; lia|].
    assert (is_Some winner) as [p ->].
    { apply Forall_cons in Hts as [(_ & _ & Hpc) _].
      apply Forall_cons in Hfin as [Hfin _].
      unfold finished in Hfin. destruct (th_pc t); try done.
      by destruct Hpc. }
    split; [rewrite Hcr; by destruct (m_database (w_db w0) !! id)|].
    exists p. split; [done|]. split; [done|].
    apply Forall_lookup. intros i t0 Hi.
    pose proof (Forall_lookup_1 _ _ _ _ Hts Hi) as (_ & _ & Hpc).
    pose proof (Forall_lookup_1 _ _ _ _ Hfin Hi) as Hf.
    unfold finished in Hf. simpl in Hf.
    destruct (th_pc t0); try done. simpl in Hpc. by destruct Hpc as [_ ->].
  - intros Hturns. apply run_finishes. simpl.
    by rewrite length_replicate.
Qed.

End RaceTheorem.

(** ** The handler registry *)

Section Registry.

Context {T : Type}.
Variable debug : bool.
Implicit Types (w : World T) (t : AssetType) (h : InstanceHandler T).

Lemma FindHandler_lookup t w :
  FindHandler t w
  = (m_handlers (w_db w) !! t, log w [EvSharedLock HandlersMutex]).
Proof. run_ops. unfold log. simpl. by destruct (_ !! t). Qed.

Lemma RemoveHandler_result t w :
  RemoveHandler t w
  = (tt, mkWorld
           (mkInstanceDatabase (delete t (m_handlers (w_db w)))
              (m_database (w_db w)) (m_baseAssetType (w_db w))
              (this_ptr (w_db w)))
           (w_heap w) (w_trace w ++ [EvUniqueLock HandlersMutex])).
Proof. by run_ops. Qed.

(** X1.  Registering a handler for a type that has none and removing it
    again gives back the database object and the heap as they were: only
    the two exclusive locks of the registry are recorded.  Removing a type
    that has no handler changes nothing either. *)
Theorem RemoveHandler_undoes_AddHandler w t h :
  m_handlers (w_db w) !! t = None →
  exec (RemoveHandler t) (exec (AddHandler debug t h) w)
  = log w [EvUniqueLock HandlersMutex; EvUniqueLock HandlersMutex] ∧
  exec (RemoveHandler t) w = log w [EvUniqueLock HandlersMutex].
Proof.
  intros Ht. unfold exec. rewrite AddHandler_fresh, !RemoveHandler_result by done.
  unfold log. simpl. rewrite delete_insert_eq, delete_id by done.
  destruct w as [[hs tbl base this] heap tr]. simpl. by norm_trace.
Qed.

(** X2.  Whatever is registered for a type, [RemoveHandler] followed by
    [AddHandler] puts the new handler in effect without an assertion, and
    the handlers of all other types, the instance table and the heap stay
    as they were.  This is the way to replace a handler, which
    [AddHandler] alone refuses. *)
Theorem AddHandler_after_RemoveHandler w t h :
  let w' := exec (AddHandler debug t h) (exec (RemoveHandler t) w) in
  eval (FindHandler t) w' = Some h ∧
  (∀ t', t' ≠ t → m_handlers (w_db w') !! t' = m_handlers (w_db w) !! t') ∧
  m_database (w_db w') = m_database (w_db w) ∧
  w_heap w' = w_heap w ∧
  w_trace w'
  = w_trace w ++ [EvUniqueLock HandlersMutex; EvUniqueLock HandlersMutex].
Proof.
  intros w'. subst w'. unfold exec, eval.
  rewrite RemoveHandler_result, AddHandler_fresh
    by (simpl; apply lookup_delete_eq).
  rewrite FindHandler_lookup. simpl. rewrite lookup_insert_eq.
  repeat split; try done.
  - intros t' Ht'. by rewrite lookup_insert_ne, lookup_delete_ne.
  - by norm_trace.
Qed.

End Registry.

(** ** Lookups, hand-outs and releases *)

Section Lifecycle.

Context {T : Type}.
Variable debug : bool.
Variable am : AssetManager.
Implicit Types (w : World T) (id key : InstanceId) (asset : Asset) (p : ptr).

Lemma Find_absent id w :
  m_database (w_db w) !! id = None →
  Find id w = (None, log w [EvSharedLock DatabaseMutex]).
Proof. intros Hid. run_ops. simpl. by rewrite Hid. Qed.

Lemma Find_present id p w :
  m_database (w_db w) !! id = Some p →
  Find id w
  = (Some p,
     mkWorld (w_db w)
       (alter (λ d, set_useCount d (wrap_int32 (m_useCount d + 1))) p
          (w_heap w))
       (w_trace w ++ [EvSharedLock DatabaseMutex])).
Proof. intros Hid. run_ops. simpl. by rewrite Hid. Qed.

(** X3.  The handler registered through the create-function overload of
    [AddHandler] carries that create function and the default deleter:
    when an instance of its asset type is released at use count 0, the
    entry is erased, the delete function runs once and the instance is
    gone from the heap, while every other instance is untouched. *)
Theorem AddHandler_create_frees_on_release w (t : AssetType)
    (f : AssetData → option (Created T)) key p d :
  m_handlers (w_db w) !! t = None →
  m_database (w_db w) !! key = Some p →
  w_heap w !! p = Some d →
  m_useCount d = 0 → m_assetType d = t → m_id d = key →
  let w1 := exec (AddHandler_create debug t f) w in
  let w2 := exec (ReleaseInstance debug p key) w1 in
  (∃ handler, eval (FindHandler t) w1 = Some handler ∧
              m_createFunction handler = f) ∧
  m_database (w_db w2) !! key = None ∧
  w_heap w2 !! p = None ∧
  (∀ q, q ≠ p → w_heap w2 !! q = w_heap w !! q) ∧
  deletions p w2 = S (deletions p w).
Proof.
  intros Ht Hk Hp Hc Hty Hid w1 w2. subst w1 w2.
  unfold AddHandler_create, exec, eval.
  rewrite AddHandler_fresh by done. rewrite FindHandler_lookup. simpl.
  rewrite lookup_insert_eq. split; [by eexists|].
  rewrite (ReleaseInstance_retires _ _ _ _ d) by done. simpl.
  rewrite Hty, lookup_insert_eq. simpl. unfold default_delete.
  rewrite Hid, !lookup_delete_eq. repeat split; try done.
  - intros q Hq. by rewrite lookup_delete_ne, lookup_insert_ne.
  - unfold deletions. simpl. count_trace.
    rewrite bool_decide_eq_true_2 by done. lia.
Qed.

(** X4.  In every reachable state, [Find(id)] right after
    [FindOrCreate(id, asset)] returns exactly what [FindOrCreate]
    returned: the instance it found or constructed, or nothing when it
    returned nothing. *)
Theorem Find_after_FindOrCreate w id asset :
  reachable debug am w →
  eval (Find id) (exec (FindOrCreate debug am id asset) w)
  = eval (FindOrCreate debug am id asset) w.
Proof.
  intros Hw%reachable_invariant. unfold eval, exec.
  destruct (m_database (w_db w) !! id) as [p|] eqn:Hp.
  - rewrite (FindOrCreate_hit _ _ _ _ _ p) by eauto. simpl.
    by rewrite (Find_present _ p).
  - destruct (FindOrCreate_outcome debug am id asset w)
      as [es _|q Hv Hq|h obj Hv _ Hc|h q d Hv _ Hc _]; simpl.
    + by rewrite Find_absent.
    + congruence.
    + rewrite (Find_present _ (fresh (dom (w_heap w)))); [done|].
      unfold constructed, entered. simpl. by rewrite lookup_insert_eq.
    + rewrite (Find_present _ q); [done|].
      unfold reused, entered. simpl. by rewrite lookup_insert_eq.
Qed.

(** X5.  Once [FindOrCreate(id, a)] has constructed, from a new object or
    from a live instance the create function handed back,
    [FindOrCreate(id, b)] returns that instance for any asset [b].  A
    debug build reports the different-asset error exactly when the id of
    [b] differs from the id of the asset the instance was built from; a
    production build reports nothing.  Either way the shared lock is the
    only lock taken. *)
Theorem FindOrCreate_again_validates w id a b handler (res : Created T) :
  IsValid id = true →
  m_database (w_db w) !! id = None →
  constructible am w a handler res →
  let w1 := exec (FindOrCreate debug am id a) w in
  let w2 := exec (FindOrCreate debug am id b) w1 in
  eval (FindOrCreate debug am id b) w1
    = eval (FindOrCreate debug am id a) w ∧
  is_Some (eval (FindOrCreate debug am id a) w) ∧
  w_db w2 = w_db w1 ∧
  w_trace w2
  = w_trace w1 ++ EvSharedLock DatabaseMutex ::
      (if debug && negb (bool_decide (GetId (loaded am a) = GetId b))
       then [EvError DifferentAssetUsed] else []).
Proof.
  intros Hv Hid Hc w1 w2. subst w1 w2. unfold eval, exec.
  destruct res as [obj|p].
  - rewrite (FindOrCreate_constructs debug am id a w handler obj) by done.
    simpl.
    rewrite (FindOrCreate_hit _ _ _ _ _ (fresh (dom (w_heap w)))); [|done|].
    2: { unfold constructed, entered. simpl. by rewrite lookup_insert_eq. }
    simpl. repeat split; try done.
    unfold validate_events, constructed, entered. simpl.
    rewrite lookup_insert_eq.
    simpl. destruct debug; [|done]. simpl. by case_bool_decide.
  - pose proof Hc as (_ & _ & _ & _ & _ & [d Hd]).
    rewrite (FindOrCreate_reuses debug am id a w handler p d) by done.
    simpl.
    rewrite (FindOrCreate_hit _ _ _ _ _ p); [|done|].
    2: { unfold reused, entered. simpl. by rewrite lookup_insert_eq. }
    simpl. repeat split; try done.
    unfold validate_events, reused, entered. simpl.
    rewrite lookup_insert_eq.
    simpl. destruct debug; [|done]. simpl. by case_bool_decide.
Qed.

(** X6.  The re-acquisition the release protocol guards against: when the
    use count of a stored instance has dropped to 0 and a lookup hands out
    a new handle before [ReleaseInstance] runs, the release is abandoned:
    the entry stays, the instance stays on the heap with use count 1 and
    no delete function is called. *)
Theorem ReleaseInstance_after_Find_keeps_instance w key p d :
  m_database (w_db w) !! key = Some p →
  w_heap w !! p = Some d →
  m_useCount d = 0 →
  let w1 := exec (Find key) w in
  let w2 := exec (ReleaseInstance debug p key) w1 in
  w_db w2 = w_db w ∧
  w_heap w2 !! p = Some (set_useCount d 1) ∧
  deletions p w2 = deletions p w ∧
  eval (Find key) w2 = Some p.
Proof.
  intros Hk Hp Hc w1 w2. subst w1 w2. unfold exec, eval.
  rewrite (Find_present _ p) by done. simpl.
  rewrite ReleaseInstance_in_use.
  2: { unfold use_count. simpl. rewrite lookup_alter_eq, Hp. simpl.
       rewrite Hc. by compute. }
  rewrite (Find_present _ p) by done. simpl.
  rewrite lookup_alter_eq, Hp. simpl. rewrite Hc.
  repeat split; try done.
  unfold deletions. simpl. count_trace. lia.
Qed.

(** X7.  After a release that retired the instance stored under a valid
    key, the key is free again: [Find] returns nothing, and
    [FindOrCreate] with an asset for which the handler allocates a new
    object builds a new instance, stamped with the id and type of that
    asset and holding the one reference of the returned handle, by one
    more call of the create function. *)
Theorem FindOrCreate_after_release_constructs w key p d asset handler obj :
  IsValid key = true →
  m_database (w_db w) !! key = Some p →
  w_heap w !! p = Some d →
  m_useCount d = 0 → m_id d = key →
  constructible am w asset handler (NewObject obj) →
  let w1 := exec (ReleaseInstance debug p key) w in
  let w2 := exec (FindOrCreate debug am key asset) w1 in
  eval (Find key) w1 = None ∧
  ∃ q d', eval (FindOrCreate debug am key asset) w1 = Some q ∧
          m_database (w_db w2) !! key = Some q ∧
          w_heap w2 !! q = Some d' ∧
          m_assetId d' = GetId (loaded am asset) ∧
          m_assetType d' = GetType (loaded am asset) ∧
          m_useCount d' = 1 ∧
          creations w2 = S (creations w).
Proof.
  intros Hv Hk Hp Hc Hid Hcons w1 w2.
  assert (m_database (w_db w1) !! key = None ∧
          m_handlers (w_db w1) = m_handlers (w_db w) ∧
          m_baseAssetType (w_db w1) = m_baseAssetType (w_db w) ∧
          creations w1 = creations w) as (Hk1 & Hh1 & Hb1 & Hc1).
  { subst w1 w2. unfold exec. rewrite (ReleaseInstance_retires _ _ _ _ d) by done.
    rewrite Hid. unfold creations.
    destruct (m_handlers (w_db w) !! m_assetType d); simpl;
      rewrite lookup_delete_eq; repeat split; try done; count_trace;
      try destruct debug; count_trace; lia. }
  split; [unfold eval; by rewrite Find_absent|].
  assert (constructible am w1 asset handler (NewObject obj)) as Hcons1
    by (by apply (constructible_new_same_db am w)).
  subst w2. unfold eval, exec.
  rewrite (FindOrCreate_constructs _ _ _ _ _ handler obj) by done.
  eexists _, _. split; [done|]. unfold constructed, entered. simpl.
  rewrite !lookup_insert_eq. repeat split; try done.
  rewrite <- Hc1. unfold creations. simpl. count_trace. lia.
Qed.

End Lifecycle.

(** ** What the operations keep *)

Section Frames.

Context {T : Type}.
Variable debug : bool.
Variable am : AssetManager.
Implicit Types (w : World T) (id key : InstanceId) (asset : Asset) (p : ptr).

Lemma alter_useCount_identity (f : Z → Z) p q (h : Heap T) d :
  h !! q = Some d →
  ∃ d', alter (λ d, set_useCount d (f (m_useCount d))) p h !! q = Some d' ∧
        identity_of d' = identity_of d.
Proof.
  intros Hq. rewrite lookup_alter. case_decide; subst; rewrite Hq; simpl;
    by eexists.
Qed.

Lemma FindOrCreate_handlers id asset w :
  m_handlers (w_db (exec (FindOrCreate debug am id asset) w))
  = m_handlers (w_db w).
Proof.
  unfold exec. by destruct (FindOrCreate_outcome debug am id asset w).
Qed.

Lemma identity_of_object (d d' : InstanceData T) :
  identity_of d' = identity_of d → m_object d' = m_object d.
Proof. unfold identity_of. by intros [= _ _ _ _ ?]. Qed.

(** X8.  [FindOrCreate(id, asset)] only ever adds the entry of [id]: the
    entries of all other keys and an entry [id] already had are kept, and
    the registry, the base asset type and the address of the database are
    unchanged.  Every instance that was on the heap is still there with
    the same object, and with the same fields, its use count apart,
    unless it is a live instance that the create function handed back
    in this call, which lines 396-399 stamp anew.  When the handler of
    the asset's type allocates, every instance keeps its fields. *)
Theorem FindOrCreate_only_adds w id asset :
  let w' := exec (FindOrCreate debug am id asset) w in
  let result := eval (FindOrCreate debug am id asset) w in
  (∀ k, k ≠ id → m_database (w_db w') !! k = m_database (w_db w) !! k) ∧
  (∀ p, m_database (w_db w) !! id = Some p →
        m_database (w_db w') !! id = Some p) ∧
  m_handlers (w_db w') = m_handlers (w_db w) ∧
  m_baseAssetType (w_db w') = m_baseAssetType (w_db w) ∧
  this_ptr (w_db w') = this_ptr (w_db w) ∧
  (∀ q d, w_heap w !! q = Some d →
     ∃ d', w_heap w' !! q = Some d' ∧ m_object d' = m_object d ∧
           (is_Some (m_database (w_db w) !! id) ∨ result ≠ Some q →
            identity_of d' = identity_of d)) ∧
  ((∀ handler,
      m_handlers (w_db w) !! GetType (loaded am asset) = Some handler →
      allocates handler) →
   ∀ q d, w_heap w !! q = Some d →
     ∃ d', w_heap w' !! q = Some d' ∧ identity_of d' = identity_of d).
Proof.
  intros w' result. subst w' result. unfold exec, eval.
  destruct (FindOrCreate_outcome debug am id asset w)
    as [es _|p Hv Hp|h obj Hv Hp Hc|h p d0 Hv Hp Hc Hd0]; simpl.
  - split_and!; try done.
    + intros q d Hq. by exists d.
    + intros _ q d Hq. by exists d.
  - split_and!; try done.
    + intros q d Hq.
      destruct (alter_useCount_identity (λ c, wrap_int32 (c + 1)) p q
                  (w_heap w) d Hq) as (d' & Hd' & Heq).
      exists d'. split; [done|]. split; [by apply (identity_of_object d)|done].
    + intros _ q d Hq.
      by apply (alter_useCount_identity (λ c, wrap_int32 (c + 1))).
  - assert (∀ q d, w_heap w !! q = Some d →
              <[fresh (dom (w_heap w)) :=
                  stamped w id (loaded am asset) obj]> (w_heap w) !! q
              = Some d) as Hkeep.
    { intros q d Hq. rewrite lookup_insert_ne; [done|]. intros <-.
      apply (is_fresh (dom (w_heap w))). apply elem_of_dom. by eexists. }
    split_and!; try done.
    + intros k Hk. by rewrite lookup_insert_ne.
    + intros p Hp'. congruence.
    + intros q d Hq. exists d. by rewrite (Hkeep q d Hq).
    + intros _ q d Hq. exists d. by rewrite (Hkeep q d Hq).
  - split_and!; try done.
    + intros k Hk. by rewrite lookup_insert_ne.
    + intros q Hq. congruence.
    + intros q d Hq. destruct (decide (q = p)) as [->|Hne].
      * rewrite lookup_insert_eq. simplify_eq. eexists. split; [done|].
        split; [done|]. rewrite Hp. intros [[? [=]]|Hres]; by destruct Hres.
      * rewrite lookup_insert_ne by done. by exists d.
    + intros Halloc. destruct Hc as (data & _ & _ & Hh & Hcr & _).
      destruct (Halloc h Hh data _ Hcr) as [obj [=]].
Qed.

(** X19.  When the create function hands back an instance that is
    already alive, [FindOrCreate] with a valid id that has no entry
    allocates nothing: it returns that instance, enters it under [id],
    overwrites its id, asset id, asset type and parent by lines 396-399,
    gives it one more reference and leaves its object as it is.  An entry
    the instance had under another key stays, so the instance is then
    stored under both keys while it carries only [id]. *)
Theorem FindOrCreate_enters_live_instance w id asset handler p d :
  IsValid id = true →
  m_database (w_db w) !! id = None →
  constructible am w asset handler (LiveInstance p) →
  w_heap w !! p = Some d →
  let w' := exec (FindOrCreate debug am id asset) w in
  eval (FindOrCreate debug am id asset) w = Some p ∧
  m_database (w_db w') !! id = Some p ∧
  dom (w_heap w') = dom (w_heap w) ∧
  (∃ d', w_heap w' !! p = Some d' ∧
         m_id d' = id ∧
         m_assetId d' = GetId (loaded am asset) ∧
         m_assetType d' = GetType (loaded am asset) ∧
         m_parentDatabase d' = Some (this_ptr (w_db w)) ∧
         m_useCount d' = wrap_int32 (m_useCount d + 1) ∧
         m_object d' = m_object d) ∧
  (∀ k, m_database (w_db w) !! k = Some p →
        k ≠ id ∧ m_database (w_db w') !! k = Some p) ∧
  creations w' = S (creations w).
Proof.
  intros Hv Hid Hc Hd w'. subst w'. unfold eval, exec.
  rewrite (FindOrCreate_reuses debug am id asset w handler p d) by done.
  unfold reused, entered. simpl. split_and!; try done.
  - by rewrite lookup_insert_eq.
  - rewrite dom_insert_L. apply subseteq_union_1_L, singleton_subseteq_l.
    by apply elem_of_dom_2 in Hd.
  - rewrite lookup_insert_eq. by eexists.
  - intros k Hk. assert (k ≠ id) as Hne by (intros ->; congruence).
    split; [done|]. by rewrite lookup_insert_ne.
  - unfold creations. simpl. count_trace. lia.
Qed.

Lemma check_loads assetLocal w :
  loads (FindOrCreate_check debug assetLocal w).2 = loads w.
Proof.
  unfold loads. run_ops. simpl. split_cases; simpl; count_trace; lia.
Qed.

Lemma exclusive_loads id asset assetLocal w :
  loads (FindOrCreate_exclusive debug id asset assetLocal w).2 = loads w.
Proof.
  unfold loads. run_ops. unfold emplace. simpl.
  split_cases; simpl; count_trace; lia.
Qed.

(** X9.  [FindOrCreate] asks the asset manager for a blocking load at
    most once, and only when it is needed: the id is valid, the table has
    no entry for it and the asset passed in is not ready.  In every other
    case no load is requested. *)
Theorem FindOrCreate_loads_on_demand w id asset :
  loads (exec (FindOrCreate debug am id asset) w)
  = (loads w +
     if IsValid id && negb (IsReady asset) &&
        bool_decide (m_database (w_db w) !! id = None)
     then 1 else 0)%nat.
Proof.
  unfold exec. destruct (IsValid id) eqn:Hv; simpl.
  2: { rewrite FindOrCreate_invalid by done. simpl. lia. }
  destruct (m_database (w_db w) !! id) as [p|] eqn:Hp.
  { rewrite (FindOrCreate_hit _ _ _ _ _ p) by done.
    rewrite bool_decide_eq_false_2, andb_false_r by done.
    unfold loads. simpl. count_trace.
    rewrite validate_events_count by done. lia. }
  rewrite bool_decide_eq_true_2, andb_true_r by done.
  unfold FindOrCreate, bind. rewrite shared_miss, load_result by done.
  assert (loads (log (log w [EvSharedLock DatabaseMutex]) (load_events asset))
          = (loads w + if negb (IsReady asset) then 1 else 0)%nat) as Hl.
  { unfold loads, log, load_events. simpl.
    destruct (IsReady asset); simpl; count_trace; lia. }
  destruct (IsReady (loaded am asset)); [|by rewrite <- Hl].
  pose proof (check_loads (loaded am asset)
                (log (log w [EvSharedLock DatabaseMutex]) (load_events asset)))
    as Hck.
  destruct (FindOrCreate_check _ _ _) as [[r|[]] w3]; simpl in *.
  - unfold ret. simpl. by rewrite Hck.
  - by rewrite exclusive_loads, Hck.
Qed.

Lemma ReleaseInstance_frame instance key w :
  let w' := exec (ReleaseInstance debug instance key) w in
  m_handlers (w_db w') = m_handlers (w_db w) ∧
  m_baseAssetType (w_db w') = m_baseAssetType (w_db w) ∧
  this_ptr (w_db w') = this_ptr (w_db w).
Proof.
  intros w'. subst w'. run_ops. simpl. by split_cases.
Qed.

Lemma perform_frame (c : Call T) w :
  let w' := exec (perform debug am c) w in
  m_baseAssetType (w_db w') = m_baseAssetType (w_db w) ∧
  this_ptr (w_db w') = this_ptr (w_db w) ∧
  w_trace w `prefix_of` w_trace w'.
Proof.
  intros w'. subst w'.
  assert (∀ x : World T, w_trace x `prefix_of` w_trace x) as Hrefl by done.
  destruct c; simpl.
  1-4: run_ops; unfold emplace; simpl; split_cases; simpl;
       repeat split; try done; rewrite <- ?app_assoc; by eexists.
  1-3: rewrite exec_then_ret; unfold FindOrCreate_asset, Create, exec;
       match goal with |- context [FindOrCreate ?d ?a ?i ?s ?x] =>
         destruct (FindOrCreate_outcome d a i s x); simpl;
         repeat split; try done; by eexists
       end.
  - run_ops. simpl. repeat split; done.
  - unfold release, fetch_sub, exec, bind, get_heap, put_heap, ret. simpl.
    destruct (w_heap w !! p) as [d|]; [|by repeat split]. simpl.
    destruct (m_useCount d =? 1); [|by repeat split].
    run_ops. simpl. split_cases; simpl; repeat split; try done;
      rewrite <- ?app_assoc; by eexists.
Qed.

(** X10.  Along any history of calls the base asset type given to the
    constructor and the address of the database never change, and the
    trace only grows: no operation retracts an event. *)
Theorem history_keeps_base (cs : list (Call T)) w :
  let w' := history debug am cs w in
  m_baseAssetType (w_db w') = m_baseAssetType (w_db w) ∧
  this_ptr (w_db w') = this_ptr (w_db w) ∧
  w_trace w `prefix_of` w_trace w'.
Proof.
  revert w. induction cs as [|c cs IH]; intros w; simpl; [done|].
  destruct (IH (exec (perform debug am c) w)) as (Hb & Ht & Hp).
  destruct (perform_frame c w) as (Hb' & Ht' & Hp').
  repeat split; [congruence..|]. by etrans.
Qed.

End Frames.

(** ** The table and the instances agree *)

Section Store.

Context {T : Type}.
Variable debug : bool.
Variable am : AssetManager.
Implicit Types (w : World T) (id key : InstanceId) (asset : Asset) (p : ptr).

Lemma default_delete_local (f : AssetData → option (Created T)) :
  local_delete (mkInstanceHandler f default_delete).
Proof. intros p h q Hq. simpl. unfold default_delete. by rewrite lookup_delete_ne. Qed.

Lemma entries_stamped_heap w (h' : Heap T) tr' :
  entries_stamped w →
  (∀ q d, w_heap w !! q = Some d →
     ∃ d', h' !! q = Some d' ∧ identity_of d' = identity_of d) →
  entries_stamped (mkWorld (w_db w) h' tr').
Proof.
  intros Hw Hh id p Hp. simpl in *.
  destruct (Hw id p Hp) as (d & Hd & Hid & Hpar).
  destruct (Hh p d Hd) as (d' & Hd' & Heq).
  exists d'. unfold identity_of in Heq. injection Heq as ? ? ? ? ?.
  repeat split; congruence.
Qed.

Lemma store_wf_heap w (h' : Heap T) tr' :
  store_wf w →
  (∀ q d, w_heap w !! q = Some d →
     ∃ d', h' !! q = Some d' ∧ identity_of d' = identity_of d) →
  store_wf (mkWorld (w_db w) h' tr').
Proof. intros [Hl He] Hh. split; [done|]. by apply entries_stamped_heap. Qed.

Lemma store_wf_log w es : store_wf w → store_wf (log w es).
Proof. intros Hw. apply store_wf_heap; [done|]. intros q d Hq. by exists d. Qed.

Lemma store_wf_count (f : Z → Z) p w tr' :
  store_wf w →
  store_wf (mkWorld (w_db w)
              (alter (λ d, set_useCount d (f (m_useCount d))) p (w_heap w))
              tr').
Proof.
  intros Hw. apply store_wf_heap; [done|]. intros q d Hq.
  by apply alter_useCount_identity.
Qed.

(** Where the handlers allocate, [FindOrCreate] keeps table and instances
    in agreement; a create function that hands back a live instance
    breaks it, see [Sample.pooled]. *)
Lemma FindOrCreate_store_wf id asset w :
  handlers_allocate w →
  store_wf w → store_wf (exec (FindOrCreate debug am id asset) w).
Proof.
  intros Halloc Hw. unfold exec.
  destruct (FindOrCreate_outcome debug am id asset w)
    as [es _|p Hv Hp|h obj Hv Hp Hc|h p d0 Hv Hp Hc Hd0]; simpl.
  - by apply store_wf_log.
  - by apply (store_wf_count (λ c, wrap_int32 (c + 1))).
  - destruct Hw as [Hl He]. split; [done|].
    intros k q. unfold constructed, entered. simpl. rewrite lookup_insert.
    case_decide as Hk.
    + intros [= <-]. subst k. rewrite lookup_insert_eq. by eexists.
    + intros Hq. destruct (He k q Hq) as (d & Hd & Hid & Hpar).
      exists d. rewrite lookup_insert_ne; [done|]. intros <-.
      apply (is_fresh (dom (w_heap w))). apply elem_of_dom. by eexists.
  - destruct Hc as (data & _ & _ & Hh & Hcr & _).
    destruct (Halloc _ h Hh data _ Hcr) as [obj [=]].
Qed.

Lemma ReleaseInstance_store_wf p key w :
  store_wf w → store_wf (exec (ReleaseInstance debug p key) w).
Proof.
  intros Hw. unfold exec.
  destruct (decide (m_database (w_db w) !! key = Some p)) as [Hk|Hk]; cycle 1.
  { rewrite ReleaseInstance_absent by done. by apply store_wf_log. }
  destruct (decide (use_count w p = Some 0)) as [Hc|Hc]; cycle 1.
  { rewrite ReleaseInstance_in_use by done. by apply store_wf_log. }
  pose proof Hc as Hc'. apply fmap_Some in Hc' as (d & Hd & Hz).
  rewrite (ReleaseInstance_retires _ _ _ _ d) by done.
  destruct Hw as [Hl He].
  destruct (He key p Hk) as (d0 & Hd0 & Hid & _). simplify_eq.
  assert (∀ k q, delete (m_id d) (m_database (w_db w)) !! k = Some q →
            q ≠ p ∧ m_database (w_db w) !! k = Some q) as Hother.
  { intros k q [Hne Hq]%lookup_delete_Some. split; [|done]. intros ->.
    destruct (He k p Hq) as (d1 & Hd1 & Hid1 & _). congruence. }
  destruct (m_handlers (w_db w) !! m_assetType d) as [h|] eqn:Hh;
    (split; [done|]); intros k q Hq; simpl in *;
    destruct (Hother k q Hq) as [Hne Hq'];
    destruct (He k q Hq') as (d1 & Hd1 & Hid1 & Hpar1); exists d1.
  - rewrite (Hl _ _ Hh) by done. by rewrite lookup_insert_ne.
  - by rewrite lookup_insert_ne.
Qed.

Lemma fetch_sub_store_wf p w :
  store_wf w → store_wf (exec (fetch_sub p) w).
Proof.
  intros Hw. unfold fetch_sub, exec, bind, get_heap, put_heap, ret. simpl.
  destruct (w_heap w !! p) as [d|] eqn:Hd; simpl; [|done].
  apply store_wf_heap; [done|]. intros q d0 Hq. rewrite lookup_insert.
  case_decide; [|by exists d0]. simplify_eq. by eexists.
Qed.

(** Only [AddHandler] and [RemoveHandler] change the registry. *)
Lemma perform_handlers (c : Call T) w :
  match c with
  | CallAddHandler _ _ | CallAddHandler_create _ _ | CallRemoveHandler _ =>
      True
  | _ => m_handlers (w_db (exec (perform debug am c) w)) = m_handlers (w_db w)
  end.
Proof.
  destruct c; simpl; try done.
  - run_ops. simpl. by split_cases.
  - rewrite exec_then_ret. apply FindOrCreate_handlers.
  - rewrite exec_then_ret. apply FindOrCreate_handlers.
  - rewrite exec_then_ret. apply FindOrCreate_handlers.
  - unfold release, fetch_sub, exec, bind, get_heap, put_heap, ret. simpl.
    destruct (w_heap w !! p) as [d|]; [|done]. simpl.
    destruct (m_useCount d =? 1); [|done].
    run_ops. simpl. by split_cases.
Qed.

Lemma perform_handlers_allocate (c : Call T) w :
  call_owning c → handlers_allocate w →
  handlers_allocate (exec (perform debug am c) w).
Proof.
  intros Hc Hw. pose proof (perform_handlers c w) as Hsame.
  destruct c;
    try (intros t h Ht; simpl in Hsame, Ht; rewrite Hsame in Ht;
         by eapply Hw);
    simpl in *.
  - unfold exec. destruct (m_handlers (w_db w) !! assetType) as [h0|] eqn:Ht.
    + by rewrite (AddHandler_taken _ _ _ _ h0).
    + rewrite AddHandler_fresh by done. intros t h. simpl.
      rewrite lookup_insert. case_decide; [intros [= <-]; apply Hc|apply Hw].
  - unfold AddHandler_create, exec.
    destruct (m_handlers (w_db w) !! assetType) as [h0|] eqn:Ht.
    + by rewrite (AddHandler_taken _ _ _ _ h0).
    + rewrite AddHandler_fresh by done. intros t h. simpl.
      rewrite lookup_insert. case_decide; [by intros [= <-]|apply Hw].
  - unfold exec. rewrite RemoveHandler_result. intros t h. simpl.
    intros [_ Ht]%lookup_delete_Some. by eapply Hw.
  - intros t h Ht. by eapply Hw.
Qed.

Lemma perform_store_wf (c : Call T) w :
  call_owning c → handlers_allocate w →
  store_wf w → store_wf (exec (perform debug am c) w).
Proof.
  intros Hc Halloc Hw. destruct c; simpl in *.
  - unfold exec. destruct (m_handlers (w_db w) !! assetType) as [h0|] eqn:Ht.
    + rewrite (AddHandler_taken _ _ _ _ h0) by done. by apply store_wf_log.
    + rewrite AddHandler_fresh by done. destruct Hw as [Hl He].
      split; [|done]. intros t h. simpl. rewrite lookup_insert.
      case_decide; [intros [= <-]; apply Hc|by apply Hl].
  - unfold AddHandler_create, exec.
    destruct (m_handlers (w_db w) !! assetType) as [h0|] eqn:Ht.
    + rewrite (AddHandler_taken _ _ _ _ h0) by done. by apply store_wf_log.
    + rewrite AddHandler_fresh by done. destruct Hw as [Hl He].
      split; [|done]. intros t h. simpl. rewrite lookup_insert.
      case_decide; [|by apply Hl].
      intros [= <-]. apply default_delete_local.
  - unfold exec. rewrite RemoveHandler_result. destruct Hw as [Hl He].
    split; [|done]. intros t h. simpl.
    intros [_ Ht]%lookup_delete_Some. by eapply Hl.
  - rewrite exec_then_ret. unfold exec.
    destruct (m_database (w_db w) !! id) as [p|] eqn:Hp.
    + rewrite (Find_present _ p) by done.
      by apply (store_wf_count (λ c, wrap_int32 (c + 1))).
    + rewrite Find_absent by done. by apply store_wf_log.
  - rewrite exec_then_ret. by apply FindOrCreate_store_wf.
  - rewrite exec_then_ret. by apply FindOrCreate_store_wf.
  - rewrite exec_then_ret. by apply FindOrCreate_store_wf.
  - run_ops. simpl. destruct w. by apply (store_wf_count (λ c, wrap_int32 (c + 1))).
  - unfold release, fetch_sub, exec, bind, get_heap, put_heap, ret. simpl.
    destruct (w_heap w !! p) as [d|] eqn:Hd; simpl; [|done].
    assert (store_wf (mkWorld (w_db w)
              (<[p := set_useCount d (wrap_int32 (m_useCount d - 1))]> (w_heap w))
              (w_trace w))) as Hw1.
    { apply store_wf_heap; [done|]. intros q d0 Hq. rewrite lookup_insert.
      case_decide; [|by exists d0]. simplify_eq. by eexists. }
    destruct (m_useCount d =? 1); [|done].
    by apply ReleaseInstance_store_wf.
Qed.

Lemma history_store_wf (cs : list (Call T)) w :
  Forall call_owning cs → handlers_allocate w → store_wf w →
  handlers_allocate (history debug am cs w) ∧
  store_wf (history debug am cs w).
Proof.
  revert w. induction cs as [|c cs IH]; intros w Hcs Ha Hw; [done|].
  apply Forall_cons in Hcs as [Hc Hcs]. simpl.
  apply IH; [done|by apply perform_handlers_allocate|by apply perform_store_wf].
Qed.

Lemma history_this_ptr (cs : list (Call T)) w :
  this_ptr (w_db (history debug am cs w)) = this_ptr (w_db w).
Proof.
  revert w. induction cs as [|c cs IH]; intros w; simpl; [done|].
  rewrite IH. apply (perform_frame debug am c w).
Qed.

Lemma new_store_wf (base : AssetType) (this : ptr) :
  handlers_allocate (InstanceDatabase_new (T:=T) base this) ∧
  store_wf (InstanceDatabase_new (T:=T) base this).
Proof.
  unfold InstanceDatabase_new. split; [|split]; intros ? ?; simpl;
    by rewrite lookup_empty.
Qed.

(** X11.  After any history of calls on a new database in which every
    registered handler owns its instances (the create function hands
    back only objects it has just allocated, and the delete function
    touches only the instance it is given), every entry of the table
    points to a live instance that carries, as [m_id], the key it is
    stored under and, as parent, this database; hence no instance is
    stored under two keys. *)
Theorem history_entries_stamped (cs : list (Call T)) (base : AssetType)
    (this : ptr) :
  Forall call_owning cs →
  let w := history debug am cs (InstanceDatabase_new base this) in
  (∀ id p, m_database (w_db w) !! id = Some p →
     ∃ d, w_heap w !! p = Some d ∧ m_id d = id ∧
          m_parentDatabase d = Some this) ∧
  (∀ id1 id2 p, m_database (w_db w) !! id1 = Some p →
     m_database (w_db w) !! id2 = Some p → id1 = id2).
Proof.
  intros Hcs w.
  destruct (new_store_wf base this) as [Ha0 Hw0].
  destruct (history_store_wf cs _ Hcs Ha0 Hw0) as [_ [_ He]]. fold w in He.
  pose proof (history_this_ptr cs (InstanceDatabase_new base this)) as Hthis.
  fold w in Hthis. simpl in Hthis.
  split.
  - intros id p Hp. destruct (He id p Hp) as (d & Hd & Hid & Hpar).
    exists d. by rewrite <- Hthis.
  - intros id1 id2 p H1 H2.
    destruct (He id1 p H1) as (d1 & Hd1 & Hid1 & _).
    destruct (He id2 p H2) as (d2 & Hd2 & Hid2 & _). congruence.
Qed.

(** X12.  In a state where table and instances agree and delete functions
    are local, a release that retires the instance stored under [key]
    erases exactly the entry of [key]: every other entry is kept and the
    instance it points to is left as it was. *)
Theorem ReleaseInstance_spares_others w p key :
  store_wf w →
  m_database (w_db w) !! key = Some p →
  use_count w p = Some 0 →
  let w' := exec (ReleaseInstance debug p key) w in
  m_database (w_db w') = delete key (m_database (w_db w)) ∧
  (∀ k q, k ≠ key → m_database (w_db w) !! k = Some q →
     m_database (w_db w') !! k = Some q ∧ w_heap w' !! q = w_heap w !! q) ∧
  store_wf w'.
Proof.
  intros Hw Hk Hc w'.
  split; [|split; [|by apply ReleaseInstance_store_wf]].
  - subst w'. unfold exec. destruct Hw as [_ He].
    pose proof Hc as Hc'. apply fmap_Some in Hc' as (d & Hd & Hz).
    destruct (He key p Hk) as (d0 & Hd0 & Hid & _). simplify_eq.
    rewrite (ReleaseInstance_retires _ _ _ _ d) by done.
    by destruct (m_handlers (w_db w) !! m_assetType d).
  - subst w'. unfold exec. destruct Hw as [Hl He].
    pose proof Hc as Hc'. apply fmap_Some in Hc' as (d & Hd & Hz).
    destruct (He key p Hk) as (d0 & Hd0 & Hid & _). simplify_eq.
    rewrite (ReleaseInstance_retires _ _ _ _ d) by done.
    intros k q Hne Hq.
    assert (q ≠ p) as Hqp.
    { intros ->. destruct (He k p Hq) as (d1 & Hd1 & Hid1 & _). congruence. }
    destruct (m_handlers (w_db w) !! m_assetType d) as [h|] eqn:Hh; simpl;
      rewrite lookup_delete_ne by done; (split; [done|]).
    + rewrite (Hl _ _ Hh) by done. by rewrite lookup_insert_ne.
    + by rewrite lookup_insert_ne.
Qed.

End Store.

(** ** Teardown and the binding to the environment *)

Section SingletonProperties.

Context {T : Type}.
Variable debug : bool.
Implicit Types (ps : Singleton.Process T) (m : nat) (t : AssetType)
  (this : ptr) (db : InstanceDatabase T).

Lemma is_bound_bind_same m ps :
  Singleton.is_bound m (Singleton.bind_handle m ps) = true.
Proof.
  unfold Singleton.is_bound, Singleton.bind_handle. simpl.
  apply bool_decide_eq_true_2. set_solver.
Qed.

Lemma is_bound_bind_mono m m' ps :
  Singleton.is_bound m' ps = true →
  Singleton.is_bound m' (Singleton.bind_handle m ps) = true.
Proof.
  unfold Singleton.is_bound, Singleton.bind_handle. simpl.
  intros Hb%bool_decide_eq_true_1. apply bool_decide_eq_true_2. set_solver.
Qed.

Lemma IsReady_value ps m :
  (Singleton.IsReady m ps).1 = Singleton.has_database ps.
Proof.
  unfold Singleton.IsReady, Singleton.FindVariable, Singleton.has_database,
    Singleton.Get.
  destruct (Singleton.is_bound m ps) eqn:Hb; simpl; [by rewrite Hb|].
  destruct (Singleton.env_variable ps) as [v|] eqn:Hv; simpl.
  - by rewrite is_bound_bind_same, Hv.
  - by rewrite Hv, andb_false_r.
Qed.

Lemma Instance_value ps m db :
  Singleton.Get ps = Some db →
  Singleton.Instance debug m ps
  = (Some db,
     if Singleton.is_bound m ps then ps else Singleton.bind_handle m ps).
Proof.
  intros Hdb.
  unfold Singleton.Instance, Singleton.FindVariable, Singleton.static_Assert,
    Singleton.has_database.
  destruct (Singleton.is_bound m ps) eqn:Hb; simpl.
  - rewrite Hb, Hdb. simpl. rewrite andb_false_r. by rewrite Hb, Hdb.
  - unfold Singleton.Get in *.
    destruct (Singleton.env_variable ps) as [v|] eqn:Hv; [|done].
    subst v. rewrite is_bound_bind_same. simpl. rewrite Hv. simpl.
    rewrite andb_false_r. rewrite is_bound_bind_same. simpl. by rewrite Hv.
Qed.

Lemma Create_without_database ps m t this :
  Singleton.has_database ps = false →
  Singleton.Create debug m t this ps
  = Singleton.mkProcess
      (Some (Some (Singleton.InstanceDatabase_ctor t this)))
      (if Singleton.is_bound m ps then Singleton.ms_instance ps
       else {[m]} ∪ Singleton.ms_instance ps)
      (Singleton.p_heap ps) (Singleton.p_trace ps)
      (Singleton.p_lifecycle ps).
Proof.
  intros Hno. unfold Singleton.Create, Singleton.static_Assert.
  rewrite Hno, orb_true_r, andb_false_r. simpl.
  destruct (Singleton.is_bound m ps) eqn:Hb; simpl; [by rewrite Hno|].
  unfold Singleton.CreateVariable, Singleton.has_database, Singleton.Get in *.
  destruct (Singleton.env_variable ps) as [[db|]|] eqn:Hv; try done; simpl;
    by rewrite ?Hv.
Qed.

Lemma Create_with_database ps m t this db :
  Singleton.Get ps = Some db →
  Singleton.Create debug m t this ps
  = if Singleton.is_bound m ps
    then Singleton.static_Assert debug false AlreadyCreated ps
    else Singleton.bind_handle m ps.
Proof.
  destruct ps as [[v|] ms h tr lc]; unfold Singleton.Get; simpl; [|done].
  intros ->.
  unfold Singleton.Create, Singleton.static_Assert, Singleton.CreateVariable,
    Singleton.has_database, Singleton.Get, Singleton.is_bound,
    Singleton.report, Singleton.bind_handle.
  simpl. rewrite orb_false_r.
  destruct (bool_decide (m ∈ ms)) eqn:Hb; simpl.
  - rewrite andb_true_r. destruct debug; simpl; by rewrite Hb.
  - rewrite andb_false_r. simpl. by rewrite Hb.
Qed.

Lemma Singleton_Get_Create_existing ps m t this db :
  Singleton.Get ps = Some db →
  Singleton.Get (Singleton.Create debug m t this ps) = Some db.
Proof.
  intros Hdb. rewrite (Create_with_database _ _ _ _ db) by done.
  destruct (Singleton.is_bound m ps); [|done].
  unfold Singleton.static_Assert. by destruct (debug && negb false).
Qed.


(** X14.  [Create] in a process whose environment holds no database (no
    variable yet, or one holding [nullptr]) installs a new database with
    the given base asset type, no handler and no entry, without any
    report; from then on [IsReady] is true and [Instance] is that database
    for every module, also for one that has not bound its handle yet. *)
Theorem Singleton_Create_installs ps m t this :
  Singleton.has_database ps = false →
  let ps' := Singleton.Create debug m t this ps in
  Singleton.Get ps' = Some (Singleton.InstanceDatabase_ctor t this) ∧
  Singleton.p_lifecycle ps' = Singleton.p_lifecycle ps ∧
  (∀ m', (Singleton.IsReady m' ps').1 = true) ∧
  (∀ m', (Singleton.Instance debug m' ps').1
         = Some (Singleton.InstanceDatabase_ctor t this) ∧
         Singleton.p_lifecycle (Singleton.Instance debug m' ps').2
         = Singleton.p_lifecycle ps).
Proof.
  intros Hno ps'. subst ps'. rewrite Create_without_database by done.
  split; [done|]. split; [done|]. split.
  - intros m'. by rewrite IsReady_value.
  - intros m'.
    rewrite (Instance_value _ _ (Singleton.InstanceDatabase_ctor t this))
      by done.
    simpl. split; [done|]. by destruct (Singleton.is_bound m' _).
Qed.

(** X15.  [Create] never replaces a database the environment already
    holds: the variable and the database, with its handlers and entries,
    are unchanged.  The already-created assertion is reported in a debug
    build when the calling module had bound its handle before; a module
    that had not is bound to the existing database without a report. *)
Theorem Singleton_Create_keeps_existing ps m t this db :
  Singleton.Get ps = Some db →
  let ps' := Singleton.Create debug m t this ps in
  Singleton.env_variable ps' = Singleton.env_variable ps ∧
  Singleton.Get ps' = Some db ∧
  Singleton.is_bound m ps' = true ∧
  Singleton.p_lifecycle ps'
  = Singleton.p_lifecycle ps ++
      (if debug && Singleton.is_bound m ps then [AlreadyCreated] else []).
Proof.
  intros Hdb ps'. subst ps'. rewrite (Create_with_database _ _ _ _ db) by done.
  destruct (Singleton.is_bound m ps) eqn:Hb.
  - unfold Singleton.static_Assert. rewrite andb_true_r.
    destruct debug; simpl; by rewrite ?app_nil_r.
  - rewrite is_bound_bind_same, andb_false_r, app_nil_r. by simpl.
Qed.

(** X16.  [IsReady] tells whether the environment holds a database, for
    every module alike, whether or not its handle was bound before; it
    changes nothing but that binding. *)
Theorem Singleton_IsReady_shared ps m :
  let r := Singleton.IsReady m ps in
  r.1 = Singleton.has_database ps ∧
  Singleton.env_variable r.2 = Singleton.env_variable ps ∧
  Singleton.p_heap r.2 = Singleton.p_heap ps ∧
  Singleton.p_trace r.2 = Singleton.p_trace ps ∧
  Singleton.p_lifecycle r.2 = Singleton.p_lifecycle ps ∧
  Singleton.ms_instance ps ⊆ Singleton.ms_instance r.2 ∧
  Singleton.ms_instance r.2 ⊆ {[m]} ∪ Singleton.ms_instance ps.
Proof.
  intros r. subst r. split; [apply IsReady_value|].
  destruct ps as [v ms h tr lc].
  unfold Singleton.IsReady, Singleton.FindVariable. simpl.
  destruct (Singleton.is_bound m _); simpl;
    [split_and!; try done; apply union_subseteq_r|].
  destruct v; simpl; split_and!; try done.
  all: apply union_subseteq_r.
Qed.

(** X17.  [Destroy] called from a module whose handle is bound runs the
    destructor of the database the variable holds, with its reports, and
    leaves the variable holding [nullptr]: [IsReady] is false for every
    module, the instances on the heap are not touched, and a following
    [Create] installs a new database without handlers.  Called from a
    module whose handle is unbound, [Destroy] dereferences an unbound
    variable. *)
Theorem Singleton_Destroy_unbinds ps m db :
  Singleton.Get ps = Some db →
  (Singleton.is_bound m ps = false → Singleton.Destroy debug m ps = None) ∧
  (Singleton.is_bound m ps = true →
   ∃ ps', Singleton.Destroy debug m ps = Some ps' ∧
     Singleton.env_variable ps' = Some None ∧
     Singleton.p_lifecycle ps'
     = Singleton.p_lifecycle ps ++ Singleton.InstanceDatabase_dtor debug db ∧
     Singleton.p_heap ps' = Singleton.p_heap ps ∧
     (∀ m', (Singleton.IsReady m' ps').1 = false) ∧
     (∀ m' t this,
        Singleton.Get (Singleton.Create debug m' t this ps')
        = Some (Singleton.InstanceDatabase_ctor t this))).
Proof.
  intros Hdb. unfold Singleton.Destroy, Singleton.static_Assert. split.
  - intros Hb. rewrite Hb, andb_true_r.
    destruct debug; simpl; [|by rewrite Hb].
    unfold Singleton.is_bound, Singleton.report in *. simpl. by rewrite Hb.
  - intros Hb. rewrite Hb, andb_false_r, Hb, Hdb. eexists. split; [done|].
    split_and!; try done.
    + intros m'. by rewrite IsReady_value.
    + intros m' t this. by rewrite Create_without_database.
Qed.

(** X18.  [Create] with a handler is the plain [Create] followed by
    [AddHandler] on the database the environment then holds, and is always
    defined.  On an environment without database the result is a database
    whose registry has exactly the given handler; on an existing database
    the handler is added only if the type has none. *)
Theorem Singleton_Create_handler_registers ps m t this
    (handler : InstanceHandler T) :
  ∃ ps', Singleton.Create_handler debug m t this handler ps = Some ps' ∧
    match Singleton.Get ps with
    | None =>
        Singleton.Get ps'
        = Some (mkInstanceDatabase {[t := handler]} ∅ t this)
    | Some db =>
        Singleton.Get ps'
        = Some (mkInstanceDatabase
                  (match m_handlers db !! t with
                   | Some _ => m_handlers db
                   | None => <[t := handler]> (m_handlers db)
                   end)
                  (m_database db) (m_baseAssetType db) (this_ptr db))
    end.
Proof.
  unfold Singleton.Create_handler, Singleton.on_Instance.
  destruct (Singleton.Get ps) as [db|] eqn:Hdb.
  - rewrite (Instance_value _ _ db).
    2: { by apply (Singleton_Get_Create_existing _ m t this). }
    set (ps1 := if Singleton.is_bound m _ then _ else _).
    set (w0 := mkWorld db (Singleton.p_heap ps1) (Singleton.p_trace ps1)).
    destruct (m_handlers db !! t) as [h0|] eqn:Ht.
    + rewrite (AddHandler_taken _ w0 t handler h0) by done. simpl.
      eexists. split; [done|]. unfold Singleton.Get. simpl. by destruct db.
    + rewrite (AddHandler_fresh _ w0 t handler) by done. simpl.
      eexists. split; [done|]. done.
  - assert (Singleton.has_database ps = false) as Hno
      by (unfold Singleton.has_database; by rewrite Hdb).
    rewrite Create_without_database by done.
    rewrite (Instance_value _ _ (Singleton.InstanceDatabase_ctor t this))
      by done.
    set (ps1 := if Singleton.is_bound m _ then _ else _).
    set (w0 := mkWorld _ (Singleton.p_heap ps1) (Singleton.p_trace ps1)).
    rewrite (AddHandler_fresh _ w0 t handler) by done. simpl.
    eexists. split; [done|]. unfold Singleton.Get. simpl.
    by rewrite insert_empty.
Qed.

End SingletonProperties.

(** ** The statements on the sample database *)

Section SampleRuns.

Import Sample.

Lemma history_reachable {T} debug am (cs : list (Call T)) (w : World T) :
  reachable debug am w → reachable debug am (history debug am cs w).
Proof.
  revert w. induction cs as [|c cs IH]; intros w Hw; [done|].
  simpl. apply IH. by constructor.
Qed.

Lemma world1_reachable : reachable false manager (world1 false).
Proof.
  replace (world1 false) with
    (history false manager
       [CallAddHandler textureType handler;
        CallFindOrCreate keyA textureAsset]
       (InstanceDatabase_new baseType 1%positive))
    by (vm_compute; reflexivity).
  apply history_reachable. constructor.
Defined.

Lemma sample_constructible :
  constructible manager (world0 false) textureUnloaded handler
    (NewObject 42%N).
Proof. exists textureData. repeat split; vm_compute; reflexivity. Defined.

Lemma handler_allocates : allocates handler.
Proof. intros data r Hr. injection Hr as <-. by eexists. Defined.


Lemma FindOrCreate_race_single_construction_witness :
  let c := run false manager interleaved
             (replicate 3 (spawn keyA textureUnloaded), world0 false) in
  creations c.2 = S (creations (world0 false)) ∧
  ∃ p, m_database (w_db c.2) !! keyA = Some p ∧
       length c.1 = 3%nat ∧
       Forall (λ t, th_pc t = Finished (Some p)) c.1.
Proof.
  intros c.
  assert (IsValid keyA = true) as H1 by reflexivity.
  assert (0 < 3)%nat as H4 by lia.
  destruct (FindOrCreate_race_single_construction false manager
              (world0 false) keyA textureUnloaded handler (NewObject 42%N) 3
              interleaved H1 sample_constructible H4)
    as (_ & _ & Hall & Hfin).
  apply Hall, Hfin. intros i Hi.
  destruct i as [|[|[|i]]]; [vm_compute; lia..|lia].
Defined.

Lemma ReleaseInstance_protocol_witness :
  m_database (w_db (exec (ReleaseInstance false 1%positive keyA) (idle false)))
  = delete keyA (m_database (w_db (idle false))) ∧
  deletions 1%positive (exec (ReleaseInstance false 1%positive keyA) (idle false))
  = S (deletions 1%positive (idle false)).
Proof.
  assert (∀ d, m_database (w_db (idle false)) !! keyA = Some 1%positive →
               w_heap (idle false) !! 1%positive = Some d → m_id d = keyA)
    as Hid.
  { intros d _ Hd. vm_compute in Hd. injection Hd as <-. reflexivity. }
  pose proof (ReleaseInstance_protocol false (idle false) 1%positive keyA Hid)
    as Hp.
  cbv zeta in Hp. destruct Hp as (Hp & _ & _).
  destruct Hp as (Htbl & _ & d & Hd & Hdel).
  { split; vm_compute; reflexivity. }
  split; [exact Htbl|].
  vm_compute in Hd. injection Hd as <-.
  exact (proj1 Hdel).
Defined.

(** C2 as stated fails when the handler of the instance was removed: the
    table maps [keyA] to the instance and its use count is exchanged
    from 0 to -1, the entry is removed, and no delete function is
    called.  The world is the one in which the drop of the last handle
    calls [ReleaseInstance]. *)
Lemma ReleaseInstance_orphan_counterexample :
  let w := orphan false in
  let w' := exec (ReleaseInstance false 1%positive keyA) w in
  release false 1%positive
    (exec (RemoveHandler textureType) (world1 false))
  = ReleaseInstance false 1%positive keyA w ∧
  ¬ ((m_database (w_db w') !! keyA = None ∧
      deletions 1%positive w' = S (deletions 1%positive w))
     ↔ (m_database (w_db w) !! keyA = Some 1%positive ∧
        use_count w 1%positive = Some 0)).
Proof.
  split; [vm_compute; reflexivity|].
  intros [_ Hback].
  destruct Hback as [_ Hdel]; [split; vm_compute; reflexivity|].
  vm_compute in Hdel. discriminate Hdel.
Qed.

Lemma FindOrCreate_not_found_leaves_table_witness :
  eval (FindOrCreate false manager keyB missingAsset) (world1 false) = None ∧
  m_database (w_db (exec (FindOrCreate false manager keyB missingAsset)
                      (world1 false)))
  = m_database (w_db (world1 false)).
Proof.
  assert (eval (FindOrCreate false manager keyB missingAsset) (world1 false)
          = None) as H by (vm_compute; reflexivity).
  split; [exact H|].
  exact (proj1 (proj2 (FindOrCreate_not_found_leaves_table false manager
                         keyB missingAsset (world1 false) H))).
Defined.

Lemma FindOrCreate_construction_stamps_witness :
  m_database (w_db (world1 false)) !! keyA = Some 1%positive ∧
  eval (Find keyA) (world1 false) = Some 1%positive.
Proof.
  assert (m_database (w_db (world0 false)) !! keyA = None) as H1
    by (vm_compute; reflexivity).
  assert (FindOrCreate false manager keyA textureAsset (world0 false)
          = (Some 1%positive, world1 false)) as H2
    by (vm_compute; reflexivity).
  destruct (FindOrCreate_construction_stamps false manager keyA textureAsset
              (world0 false) 1%positive (world1 false) H1 H2)
    as (_ & Htbl & Hfind & _).
  exact (conj Htbl Hfind).
Defined.

Lemma reachable_keys_valid_witness :
  keys_valid (world1 false) ∧
  FindOrCreate false manager InstanceId_default textureAsset (world1 false)
  = (None, world1 false).
Proof.
  destruct (reachable_keys_valid false manager (world1 false)
              world1_reachable) as (Hk & Hd & _ & Hf).
  split; [exact Hk|]. apply Hf. exact Hd.
Defined.

Lemma FindOrCreate_rejects_foreign_type_witness :
  eval (FindOrCreate true manager keyB foreignAsset) (world1 true) = None ∧
  exec (FindOrCreate true manager keyB foreignAsset) (world1 true)
  = log (world1 true)
      [EvSharedLock DatabaseMutex; EvSharedLock HandlersMutex;
       EvUniqueLock DatabaseMutex; EvSharedLock HandlersMutex;
       EvWarning (NoHandlerFound foreignType)].
Proof.
  assert (IsValid keyB = true) as H1 by reflexivity.
  assert (m_database (w_db (world1 true)) !! keyB = None) as H2
    by (vm_compute; reflexivity).
  assert (IsReady (loaded manager foreignAsset) = true) as H3
    by reflexivity.
  assert (azrtti_istypeof (m_baseAssetType (w_db (world1 true)))
            (Get (loaded manager foreignAsset)) = false) as H4
    by (vm_compute; reflexivity).
  pose proof (FindOrCreate_rejects_foreign_type true manager keyB
                foreignAsset (world1 true) H1 H2 H3 H4) as H.
  unfold eval, exec. rewrite H. split; [reflexivity|].
  vm_compute. reflexivity.
Defined.

Lemma AddHandler_twice_keeps_first_witness :
  eval (FindHandler textureType)
    (exec (AddHandler true textureType otherHandler)
       (exec (AddHandler true textureType handler)
          (InstanceDatabase_new baseType 1%positive)))
  = Some handler.
Proof.
  assert (m_handlers (w_db (InstanceDatabase_new (T:=N) baseType 1%positive))
            !! textureType = None) as H by (vm_compute; reflexivity).
  exact (proj2 (proj2 (AddHandler_twice_keeps_first true
                         (InstanceDatabase_new baseType 1%positive)
                         textureType handler otherHandler) H)).
Defined.



Lemma FindOrCreate_asset_same_slot_witness :
  eval (FindOrCreate_asset false manager textureUnloaded)
    (exec (FindOrCreate_asset false manager textureAsset) (world0 false))
  = Some 1%positive.
Proof.
  assert (GetId textureUnloaded = GetId textureAsset) as H1 by reflexivity.
  assert (FindOrCreate_asset false manager textureAsset (world0 false)
          = (Some 1%positive,
             exec (FindOrCreate_asset false manager textureAsset)
               (world0 false))) as H2 by (vm_compute; reflexivity).
  exact (proj1 (proj2 (FindOrCreate_asset_same_slot false manager
                         (world0 false) textureAsset textureUnloaded
                         1%positive _ H1 H2))).
Defined.

Lemma FindOrCreate_cache_hit_witness :
  eval (FindOrCreate false manager keyA missingAsset) (world1 false)
  = Some 1%positive ∧
  w_trace (exec (FindOrCreate false manager keyA foreignAsset) (world1 false))
  = w_trace (world1 false) ++ [EvSharedLock DatabaseMutex].
Proof.
  assert (m_database (w_db (world1 false)) !! keyA = Some 1%positive) as H
    by (vm_compute; reflexivity).
  pose proof (FindOrCreate_cache_hit false manager (world1 false) keyA
                1%positive missingAsset world1_reachable H) as H1.
  pose proof (FindOrCreate_cache_hit false manager (world1 false) keyA
                1%positive foreignAsset world1_reachable H) as H2.
  cbv zeta in H1, H2.
  destruct H1 as (Hres & _).
  destruct H2 as (_ & _ & _ & _ & _ & _ & Htr).
  split; [exact Hres|]. apply Htr. reflexivity.
Defined.

End SampleRuns.

(** ** The further statements on the sample database *)

Section FurtherRuns.

Import Sample.

Lemma idle2_store_wf : store_wf (idle2 false).
Proof.
  unfold idle2. apply fetch_sub_store_wf.
  replace (world2 false) with
    (history false manager
       [CallAddHandler textureType handler;
        CallFindOrCreate keyA textureAsset;
        CallFindOrCreate keyB textureAsset]
       (InstanceDatabase_new baseType 1%positive))
    by (vm_compute; reflexivity).
  apply history_store_wf; [|apply new_store_wf..].
  repeat constructor.
  - apply default_delete_local.
  - apply handler_allocates.
Defined.

Lemma RemoveHandler_undoes_AddHandler_witness :
  exec (RemoveHandler foreignType)
    (exec (AddHandler true foreignType otherHandler) (world1 true))
  = log (world1 true)
      [EvUniqueLock HandlersMutex; EvUniqueLock HandlersMutex].
Proof.
  assert (m_handlers (w_db (world1 true)) !! foreignType = None) as H
    by (vm_compute; reflexivity).
  exact (proj1 (RemoveHandler_undoes_AddHandler true (world1 true)
                  foreignType otherHandler H)).
Defined.

Lemma AddHandler_after_RemoveHandler_witness :
  eval (FindHandler textureType)
    (exec (AddHandler true textureType otherHandler)
       (exec (RemoveHandler textureType) (world1 true)))
  = Some otherHandler ∧
  m_handlers (w_db (exec (AddHandler true textureType otherHandler)
                      (exec (RemoveHandler textureType) (world1 true))))
    !! foreignType
  = m_handlers (w_db (world1 true)) !! foreignType.
Proof.
  assert (foreignType ≠ textureType) as H by (intros H; discriminate H).
  destruct (AddHandler_after_RemoveHandler true (world1 true) textureType
              otherHandler) as (Hfind & Hother & _).
  exact (conj Hfind (Hother foreignType H)).
Defined.

Lemma AddHandler_create_frees_on_release_witness :
  let w1 := exec (AddHandler_create false textureType
                    (λ data, Some (NewObject (ad_payload data))))
              (orphan false) in
  let w2 := exec (ReleaseInstance false 1%positive keyA) w1 in
  m_database (w_db w2) !! keyA = None ∧
  w_heap w2 !! 1%positive = None ∧
  deletions 1%positive w2 = S (deletions 1%positive (orphan false)).
Proof.
  assert (m_handlers (w_db (orphan false)) !! textureType = None) as H1
    by (vm_compute; reflexivity).
  assert (m_database (w_db (orphan false)) !! keyA = Some 1%positive) as H2
    by (vm_compute; reflexivity).
  assert (w_heap (orphan false) !! 1%positive = Some idleData) as H3
    by (vm_compute; reflexivity).
  assert (m_useCount idleData = 0) as H4 by reflexivity.
  assert (m_assetType idleData = textureType) as H5 by reflexivity.
  assert (m_id idleData = keyA) as H6 by reflexivity.
  destruct (AddHandler_create_frees_on_release false (orphan false)
              textureType (λ data, Some (NewObject (ad_payload data))) keyA
              1%positive idleData H1 H2 H3 H4 H5 H6)
    as (_ & Htbl & Hheap & _ & Hdel).
  exact (conj Htbl (conj Hheap Hdel)).
Defined.

Lemma Find_after_FindOrCreate_witness :
  eval (Find keyB)
    (exec (FindOrCreate false manager keyB textureUnloaded) (world1 false))
  = eval (FindOrCreate false manager keyB textureUnloaded) (world1 false).
Proof.
  exact (Find_after_FindOrCreate false manager (world1 false) keyB
           textureUnloaded world1_reachable).
Defined.

Lemma FindOrCreate_again_validates_witness :
  let w1 := exec (FindOrCreate true manager keyA textureAsset)
              (world0 true) in
  eval (FindOrCreate true manager keyA foreignAsset) w1
  = eval (FindOrCreate true manager keyA textureAsset) (world0 true) ∧
  w_trace (exec (FindOrCreate true manager keyA foreignAsset) w1)
  = w_trace w1 ++
      [EvSharedLock DatabaseMutex; EvError DifferentAssetUsed].
Proof.
  assert (IsValid keyA = true) as H1 by reflexivity.
  assert (m_database (w_db (world0 true)) !! keyA = None) as H2
    by (vm_compute; reflexivity).
  assert (constructible manager (world0 true) textureAsset handler
            (NewObject 42%N))
    as H3 by (exists textureData; repeat split; vm_compute; reflexivity).
  destruct (FindOrCreate_again_validates true manager (world0 true) keyA
              textureAsset foreignAsset handler (NewObject 42%N) H1 H2 H3)
    as (Hres & _ & _ & Htr).
  exact (conj Hres Htr).
Defined.

Lemma ReleaseInstance_after_Find_keeps_instance_witness :
  let w2 := exec (ReleaseInstance false 1%positive keyA)
              (exec (Find keyA) (idle false)) in
  w_db w2 = w_db (idle false) ∧
  w_heap w2 !! 1%positive = Some (set_useCount idleData 1) ∧
  deletions 1%positive w2 = deletions 1%positive (idle false).
Proof.
  assert (m_database (w_db (idle false)) !! keyA = Some 1%positive) as H1
    by (vm_compute; reflexivity).
  assert (w_heap (idle false) !! 1%positive = Some idleData) as H2
    by (vm_compute; reflexivity).
  assert (m_useCount idleData = 0) as H3 by reflexivity.
  destruct (ReleaseInstance_after_Find_keeps_instance false (idle false)
              keyA 1%positive idleData H1 H2 H3)
    as (Hdb & Hheap & Hdel & _).
  exact (conj Hdb (conj Hheap Hdel)).
Defined.

Lemma FindOrCreate_after_release_constructs_witness :
  let w1 := exec (ReleaseInstance false 1%positive keyA) (idle false) in
  eval (Find keyA) w1 = None ∧
  creations (exec (FindOrCreate false manager keyA textureUnloaded) w1)
  = S (creations (idle false)).
Proof.
  assert (IsValid keyA = true) as H1 by reflexivity.
  assert (m_database (w_db (idle false)) !! keyA = Some 1%positive) as H2
    by (vm_compute; reflexivity).
  assert (w_heap (idle false) !! 1%positive = Some idleData) as H3
    by (vm_compute; reflexivity).
  assert (m_useCount idleData = 0) as H4 by reflexivity.
  assert (m_id idleData = keyA) as H5 by reflexivity.
  assert (constructible manager (idle false) textureUnloaded handler
            (NewObject 42%N))
    as H6 by (exists textureData; repeat split; vm_compute; reflexivity).
  destruct (FindOrCreate_after_release_constructs false manager (idle false)
              keyA 1%positive idleData textureUnloaded handler 42%N
              H1 H2 H3 H4 H5 H6)
    as (Hfind & q & d' & _ & _ & _ & _ & _ & _ & Hcre).
  exact (conj Hfind Hcre).
Defined.

Lemma FindOrCreate_only_adds_witness :
  let w := pooled false in
  let w' := exec (FindOrCreate false manager (CreateRandom 200%N)
                    pooledAsset) w in
  eval (FindOrCreate false manager (CreateRandom 200%N) pooledAsset) w
  = Some 1%positive ∧
  m_database (w_db w') !! keyA = m_database (w_db w) !! keyA ∧
  (∃ d', w_heap w' !! 1%positive = Some d' ∧ m_object d' = 42%N) ∧
  ∃ d', w_heap w' !! 2%positive = Some d' ∧
        identity_of d'
        = (keyB, textureId, textureType, Some 1%positive, 42%N).
Proof.
  intros w w'.
  assert (keyA ≠ CreateRandom 200%N) as H1 by (intros H; discriminate H).
  assert (w_heap w !! 1%positive
          = Some (mkInstanceData keyA textureId textureType (Some 1%positive)
                    1 42%N)) as H2 by (vm_compute; reflexivity).
  assert (w_heap w !! 2%positive
          = Some (mkInstanceData keyB textureId textureType (Some 1%positive)
                    1 42%N)) as H3 by (vm_compute; reflexivity).
  assert (eval (FindOrCreate false manager (CreateRandom 200%N) pooledAsset) w
          ≠ Some 2%positive) as H4 by (intros H; vm_compute in H; discriminate H).
  destruct (FindOrCreate_only_adds false manager w (CreateRandom 200%N)
              pooledAsset) as (Hkeys & _ & _ & _ & _ & Hheap & _).
  destruct (Hheap _ _ H2) as (d1 & Hd1 & Hobj1 & _).
  destruct (Hheap _ _ H3) as (d2 & Hd2 & _ & Hid2).
  split; [vm_compute; reflexivity|].
  split; [exact (Hkeys keyA H1)|].
  split; [exists d1; split; [exact Hd1|exact Hobj1]|].
  exists d2. split; [exact Hd2|].
  rewrite (Hid2 (or_intror H4)). reflexivity.
Defined.

Lemma FindOrCreate_enters_live_instance_witness :
  let w := pooled false in
  let w' := exec (FindOrCreate false manager (CreateRandom 200%N)
                    pooledAsset) w in
  m_database (w_db w') !! CreateRandom 200%N = Some 1%positive ∧
  m_database (w_db w') !! keyA = Some 1%positive ∧
  (m_id <$> w_heap w' !! 1%positive) = Some (CreateRandom 200%N) ∧
  creations w' = S (creations w).
Proof.
  intros w w'.
  assert (IsValid (CreateRandom 200%N) = true) as H1 by reflexivity.
  assert (m_database (w_db w) !! CreateRandom 200%N = None) as H2
    by (vm_compute; reflexivity).
  assert (constructible manager w pooledAsset pooledHandler
            (LiveInstance 1%positive)) as H3.
  { exists pooledData. split_and!; try (vm_compute; reflexivity).
    vm_compute. by eexists. }
  assert (w_heap w !! 1%positive
          = Some (mkInstanceData keyA textureId textureType (Some 1%positive)
                    1 42%N)) as H4 by (vm_compute; reflexivity).
  assert (m_database (w_db w) !! keyA = Some 1%positive) as H5
    by (vm_compute; reflexivity).
  destruct (FindOrCreate_enters_live_instance false manager w
              (CreateRandom 200%N) pooledAsset pooledHandler 1%positive _
              H1 H2 H3 H4)
    as (_ & Hnew & _ & (d' & Hd' & Hid & _) & Hold & Hcre).
  split; [exact Hnew|]. split; [exact (proj2 (Hold keyA H5))|].
  split; [|exact Hcre].
  exact (eq_trans (f_equal (fmap m_id) Hd') (f_equal Some Hid)).
Defined.

Lemma history_entries_stamped_witness :
  let w := history false manager
             [CallAddHandler textureType handler;
              CallFindOrCreate keyA textureAsset;
              CallFindOrCreate_asset textureUnloaded]
             (InstanceDatabase_new baseType 1%positive) in
  ∃ d, w_heap w !! 1%positive = Some d ∧ m_id d = keyA ∧
       m_parentDatabase d = Some 1%positive.
Proof.
  intros w.
  assert (Forall (call_owning (T:=N))
            [CallAddHandler textureType handler;
             CallFindOrCreate keyA textureAsset;
             CallFindOrCreate_asset textureUnloaded]) as H.
  { repeat constructor; [apply default_delete_local|apply handler_allocates]. }
  assert (m_database (w_db w) !! keyA = Some 1%positive) as Hk
    by (vm_compute; reflexivity).
  exact (proj1 (history_entries_stamped false manager _ baseType 1%positive
                  H) keyA 1%positive Hk).
Defined.

Lemma ReleaseInstance_spares_others_witness :
  let w := idle2 false in
  let w' := exec (ReleaseInstance false 1%positive keyA) w in
  m_database (w_db w') !! keyA = None ∧
  m_database (w_db w') !! keyB = Some 2%positive ∧
  w_heap w' !! 1%positive = None ∧
  w_heap w' !! 2%positive = w_heap w !! 2%positive ∧
  is_Some (w_heap w !! 2%positive) ∧
  store_wf w'.
Proof.
  intros w w'.
  assert (m_database (w_db w) !! keyA = Some 1%positive) as H1
    by (vm_compute; reflexivity).
  assert (use_count w 1%positive = Some 0) as H2
    by (vm_compute; reflexivity).
  assert (keyB ≠ keyA) as H3 by (intros H; discriminate H).
  assert (m_database (w_db w) !! keyB = Some 2%positive) as H4
    by (vm_compute; reflexivity).
  destruct (ReleaseInstance_spares_others false w 1%positive keyA
              idle2_store_wf H1 H2) as (Htbl & Hothers & Hwf).
  destruct (Hothers keyB 2%positive H3 H4) as [HB Hheap].
  split; [unfold w'; rewrite Htbl; apply lookup_delete_eq|].
  split; [exact HB|].
  split; [vm_compute; reflexivity|].
  split; [exact Hheap|].
  split; [vm_compute; by eexists|exact Hwf].
Defined.


Lemma Singleton_Create_installs_witness :
  (Singleton.IsReady 1
     (Singleton.Create true 0 baseType 1%positive (Singleton.start (T:=N)))).1
  = true.
Proof.
  assert (Singleton.has_database (Singleton.start (T:=N)) = false) as H
    by reflexivity.
  destruct (Singleton_Create_installs true (Singleton.start (T:=N)) 0
              baseType 1%positive H) as (_ & _ & Hready & _).
  exact (Hready 1%nat).
Defined.

Lemma Singleton_Create_keeps_existing_witness :
  let ps := Singleton.Create true 0 baseType 1%positive
              (Singleton.start (T:=N)) in
  Singleton.Get (Singleton.Create true 0 textureType 2%positive ps)
  = Some (Singleton.InstanceDatabase_ctor baseType 1%positive) ∧
  Singleton.p_lifecycle (Singleton.Create true 0 textureType 2%positive ps)
  = [AlreadyCreated] ∧
  Singleton.p_lifecycle (Singleton.Create true 1 textureType 2%positive ps)
  = [].
Proof.
  intros ps.
  assert (Singleton.Get ps
          = Some (Singleton.InstanceDatabase_ctor baseType 1%positive)) as H
    by (vm_compute; reflexivity).
  destruct (Singleton_Create_keeps_existing true ps 0 textureType 2%positive
              _ H) as (_ & Hget & _ & Hlog).
  destruct (Singleton_Create_keeps_existing true ps 1 textureType 2%positive
              _ H) as (_ & _ & _ & Hlog').
  split; [exact Hget|]. split.
  - rewrite Hlog. vm_compute. reflexivity.
  - rewrite Hlog'. vm_compute. reflexivity.
Defined.

Lemma Singleton_Destroy_unbinds_witness :
  let ps := Singleton.Create true 0 baseType 1%positive
              (Singleton.start (T:=N)) in
  Singleton.Destroy true 1 ps = None ∧
  ∃ ps', Singleton.Destroy true 0 ps = Some ps' ∧
         (Singleton.IsReady 1 ps').1 = false.
Proof.
  intros ps.
  assert (Singleton.Get ps
          = Some (Singleton.InstanceDatabase_ctor baseType 1%positive)) as H
    by (vm_compute; reflexivity).
  assert (Singleton.is_bound 1 ps = false) as H1 by (vm_compute; reflexivity).
  assert (Singleton.is_bound 0 ps = true) as H0 by (vm_compute; reflexivity).
  destruct (Singleton_Destroy_unbinds true ps 1 _ H) as (Hnone & _).
  destruct (Singleton_Destroy_unbinds true ps 0 _ H) as (_ & Hsome).
  destruct (Hsome H0) as (ps' & Hrun & _ & _ & _ & Hready & _).
  split; [exact (Hnone H1)|].
  exact (ex_intro _ ps' (conj Hrun (Hready 1%nat))).
Defined.

End FurtherRuns.
